(** * Heart-disease risk checker: feature derivation and prediction

    A shallow embedding of [app.py] (the Streamlit inference script) and of
    [train_model.py] (the offline training script).

    Python [int] is modelled by [Z], Python [float] by the kernel's binary64
    floats ([PrimFloat.float], the same IEEE 754 format and rounding as
    CPython's C doubles), exceptions by a result type. *)

From Stdlib Require Import ZArith QArith List String Bool Lia.
From Stdlib Require Import Floats.
Import ListNotations.

Set Warnings "-inexact-float".

Local Open Scope Z_scope.

(** ** Exceptions *)

Inductive exn : Type :=
| FileNotFoundError
| UnpicklingError
| IndexError
| ValueError
| OverflowError.

Inductive result (A : Type) : Type :=
| Ok (a : A)
| Raise (e : exn).

Arguments Ok {A} a.
Arguments Raise {A} e.

Definition bind {A B : Type} (c : result A) (k : A -> result B) : result B :=
  match c with
  | Ok a => k a
  | Raise e => Raise e
  end.

Notation "x <- c ;; k" := (bind c (fun x => k))
  (at level 61, c at next level, right associativity).

(** ** Python builtins used by the scripts *)

Module Py.

(** [l[i]] on a list: negative indices count from the end, anything outside
    [-len, len) raises [IndexError]. *)
Definition getitem {A : Type} (l : list A) (i : Z) : result A :=
  let n := Z.of_nat (List.length l) in
  let j := if i <? 0 then i + n else i in
  if (0 <=? j) && (j <? n) then
    match nth_error l (Z.to_nat j) with
    | Some a => Ok a
    | None => Raise IndexError
    end
  else Raise IndexError.

(** Conversion of an [int] to a [float], as done by [float(n)] and by mixed
    [int]/[float] arithmetic: round to nearest even; [OverflowError] when the
    integer is beyond the range of a double. *)
Definition float_of_int (n : Z) : result float :=
  let f := SF2Prim (binary_normalize prec emax n 0 false) in
  if is_infinity f then Raise OverflowError else Ok f.

(** [int(x)] on a float: truncation toward zero; [ValueError] on NaN,
    [OverflowError] on an infinity. *)
Definition int_of_float (x : float) : result Z :=
  match Prim2SF x with
  | S754_zero _ => Ok 0
  | S754_finite s m e =>
      let a := Z.shiftl (Z.pos m) e in
      Ok (if s then - a else a)
  | S754_infinity _ => Raise OverflowError
  | S754_nan => Raise ValueError
  end.

(** Round half to even of the rational [a / 2^k], for [a >= 0]. *)
Definition round_half_even_shift (a : Z) (k : Z) : Z :=
  let q := Z.shiftr a k in
  let r := a - Z.shiftl q k in
  match Z.compare (2 * r) (Z.shiftl 1 k) with
  | Lt => q
  | Gt => q + 1
  | Eq => if Z.even q then q else q + 1
  end.

(** [round(x, 1)] on a float: the exact binary value of [x] is rounded (half
    to even) to a multiple of one tenth, and the result is the double nearest to
    that decimal.  Non-finite values, zeros and integral values are returned
    unchanged. *)
Definition round1 (x : float) : float :=
  match Prim2SF x with
  | S754_finite s m e =>
      if 0 <=? e then x
      else
        match round_half_even_shift (10 * Z.pos m) (- e) with
        | Z.pos n =>
            SF2Prim (SFdiv prec emax (S754_finite s n 0) (S754_finite false 10 0))
        | _ => if s then neg_zero else zero
        end
  | _ => x
  end.

End Py.

(** ** The form ([app.py], lines 18-68)

    Each [st.radio] / [st.selectbox] returns one of its listed options, so each
    question is an enumeration, in the order of the option list. *)

Module Gender.
Inductive t : Type := Male | Female.
End Gender.

Module Smoking.
Inductive t : Type := Never | Occasionally | Daily.
End Smoking.

Module Exercise.
Inductive t : Type := Rarely | Days_1_2 | Days_3_5 | Everyday.
End Exercise.

Module Diet.
Inductive t : Type := Poor | Average | Healthy.
End Diet.

Module Stress.
Inductive t : Type := Low | Moderate | High.
End Stress.

Module FamilyHistory.
Inductive t : Type := No | Yes.
End FamilyHistory.

Module Weight.
Inductive t : Type := Underweight | Normal | Overweight | Obese.
End Weight.

Module Sleep.
Inductive t : Type := Poor | Average | Good.
End Sleep.

(** The option lists of the optional clinical select boxes. *)

Module YesNoOpt.
Inductive t : Type := Unknown | No | Yes.
End YesNoOpt.

Module RestEcgOpt.
Inductive t : Type :=
| Unknown | Normal | ST_T_wave_abnormality | Left_ventricular_hypertrophy.
End RestEcgOpt.

Module SlopeOpt.
Inductive t : Type := Unknown | Upsloping | Flat | Downsloping.
End SlopeOpt.

Module ThalOpt.
Inductive t : Type := Unknown | Normal | Fixed_defect | Reversible_defect.
End ThalOpt.

(** The plain-language answers. [age] comes from [st.slider(.., 18, 100, 45)]. *)
Record Answers : Type := {
  age : Z;
  gender : Gender.t;
  smoking : Smoking.t;
  exercise : Exercise.t;
  diet : Diet.t;
  stress : Stress.t;
  family_history : FamilyHistory.t;
  weight : Weight.t;
  sleep : Sleep.t
}.

(** The optional clinical values of the expander (lines 56-66).  A field is
    [Some v] when the name is bound (the test ['x_opt' in locals()] of lines
    134-143 succeeds) and [None] when it is not.  The form binds every name, so
    a run of the script always has [Some]. *)
Record Overrides : Type := {
  trestbps_opt : option Z;
  chol_opt : option Z;
  fbs_opt : option YesNoOpt.t;
  restecg_opt : option RestEcgOpt.t;
  thalach_opt : option Z;
  exang_opt : option YesNoOpt.t;
  oldpeak_opt : option float;
  slope_opt : option SlopeOpt.t;
  ca_opt : option Z;
  thal_opt : option ThalOpt.t
}.

(** The values of the widgets when the expander is left untouched
    ([value=0], [value=0.0], [index=0], slider start [0]). *)
Definition no_overrides : Overrides := {|
  trestbps_opt := Some 0;
  chol_opt := Some 0;
  fbs_opt := Some YesNoOpt.Unknown;
  restecg_opt := Some RestEcgOpt.Unknown;
  thalach_opt := Some 0;
  exang_opt := Some YesNoOpt.Unknown;
  oldpeak_opt := Some 0%float;
  slope_opt := Some SlopeOpt.Unknown;
  ca_opt := Some 0;
  thal_opt := Some ThalOpt.Unknown
|}.

(** The bounds the widgets enforce. *)
Definition valid_answers (a : Answers) : Prop := 18 <= age a <= 100.

Definition in_range (lo hi : Z) (v : option Z) : Prop :=
  match v with
  | Some z => lo <= z <= hi
  | None => True
  end.

Definition valid_overrides (o : Overrides) : Prop :=
  in_range 0 300 (trestbps_opt o) /\
  in_range 0 800 (chol_opt o) /\
  in_range 0 230 (thalach_opt o) /\
  in_range 0 4 (ca_opt o) /\
  match oldpeak_opt o with
  | Some x => (0 <=? x)%float = true /\ (x <=? 10)%float = true
  | None => True
  end.

(** ** Friendly inputs to scores (lines 71-79) *)

Definition sex (a : Answers) : Z :=
  match gender a with Gender.Male => 1 | Gender.Female => 0 end.

Definition smoke_score (a : Answers) : Z :=
  match smoking a with
  | Smoking.Never => 0 | Smoking.Occasionally => 1 | Smoking.Daily => 2
  end.

Definition exercise_score (a : Answers) : Z :=
  match exercise a with
  | Exercise.Rarely => 0 | Exercise.Days_1_2 => 1
  | Exercise.Days_3_5 => 2 | Exercise.Everyday => 3
  end.

Definition diet_score (a : Answers) : Z :=
  match diet a with
  | Diet.Poor => 0 | Diet.Average => 1 | Diet.Healthy => 2
  end.

Definition stress_score (a : Answers) : Z :=
  match stress a with
  | Stress.Low => 0 | Stress.Moderate => 1 | Stress.High => 2
  end.

Definition family_score (a : Answers) : Z :=
  match family_history a with FamilyHistory.Yes => 1 | FamilyHistory.No => 0 end.

Definition weight_score (a : Answers) : Z :=
  match weight a with
  | Weight.Underweight => 0 | Weight.Normal => 1
  | Weight.Overweight => 2 | Weight.Obese => 3
  end.

Definition sleep_score (a : Answers) : Z :=
  match sleep a with
  | Sleep.Poor => 0 | Sleep.Average => 1 | Sleep.Good => 2
  end.

(** ** Default estimates (lines 82-98)

    The Python functions read module-level variables; here each takes the
    variables it reads as arguments. *)

Definition estimate_trestbps (age stress_score weight_score : Z) : result Z :=
  d <- Py.float_of_int (age - 18) ;;
  let base := (110 + d * 0.2)%float in
  s <- Py.float_of_int (stress_score * 8) ;;
  w <- Py.float_of_int (weight_score * 7) ;;
  Py.int_of_float (base + s + w)%float.

Definition estimate_chol (age smoke_score diet_score : Z) : result Z :=
  d <- Py.float_of_int (age - 18) ;;
  let base := (160 + d * 0.8)%float in
  smoke_penalty <- Py.getitem [0; 15; 30] smoke_score ;;
  diet_adjust <- Py.getitem [25; 10; -10] diet_score ;;
  p <- Py.float_of_int smoke_penalty ;;
  j <- Py.float_of_int diet_adjust ;;
  Py.int_of_float (base + p + j)%float.

Definition estimate_thalach (age exercise_score stress_score : Z) : result Z :=
  let base := 200 - age in
  exercise_bonus <- Py.getitem [-10; -5; 0; 5] exercise_score ;;
  Ok (Z.max 90 (Z.min 200 (base + exercise_bonus - stress_score * 5))).

Definition estimate_oldpeak (stress_score weight_score : Z) : result float :=
  s <- Py.float_of_int stress_score ;;
  w <- Py.float_of_int (Z.max 0 (weight_score - 1)) ;;
  Ok (Py.round1 (0.2 + s * 0.6 + w * 0.3)%float).

(** ** Rule-based derivations (lines 100-131) *)

Definition derive_cp (stress_score exercise_score smoke_score : Z) : Z :=
  if (stress_score =? 2) && (exercise_score =? 0) then 2
  else if (stress_score =? 2) && (smoke_score =? 2) then 1
  else 0.

Definition derive_fbs (age diet_score weight_score : Z) : Z :=
  if (diet_score =? 0) && (weight_score =? 3) then 1
  else if (age >=? 60) && (diet_score =? 0) then 1
  else 0.

Definition derive_restecg : Z := 0.

Definition derive_exang (exercise_score stress_score : Z) : Z :=
  if (exercise_score =? 0) && (stress_score >=? 1) then 1 else 0.

Definition derive_slope (exercise_score stress_score : Z) : Z :=
  if (exercise_score >=? 2) && (stress_score =? 0) then 0
  else if stress_score =? 2 then 2
  else 1.

Definition derive_ca (age smoke_score : Z) : Z :=
  if (age >=? 60) && (smoke_score =? 2) then 1 else 0.

Definition derive_thal (family_score : Z) : Z :=
  if family_score =? 1 then 2 else 1.

(** ** Optional medical inputs, when provided (lines 133-144) *)

Definition trestbps (a : Answers) (o : Overrides) : result Z :=
  match trestbps_opt o with
  | Some v =>
      if v >? 0 then Ok v
      else estimate_trestbps (age a) (stress_score a) (weight_score a)
  | None => estimate_trestbps (age a) (stress_score a) (weight_score a)
  end.

Definition chol (a : Answers) (o : Overrides) : result Z :=
  match chol_opt o with
  | Some v =>
      if v >? 0 then Ok v
      else estimate_chol (age a) (smoke_score a) (diet_score a)
  | None => estimate_chol (age a) (smoke_score a) (diet_score a)
  end.

Definition fbs (a : Answers) (o : Overrides) : Z :=
  match fbs_opt o with
  | Some YesNoOpt.Unknown => derive_fbs (age a) (diet_score a) (weight_score a)
  | Some YesNoOpt.No => 0
  | Some YesNoOpt.Yes => 1
  | None => derive_fbs (age a) (diet_score a) (weight_score a)
  end.

Definition restecg (o : Overrides) : Z :=
  match restecg_opt o with
  | Some RestEcgOpt.Unknown => derive_restecg
  | Some RestEcgOpt.Normal => 0
  | Some RestEcgOpt.ST_T_wave_abnormality => 1
  | Some RestEcgOpt.Left_ventricular_hypertrophy => 2
  | None => derive_restecg
  end.

Definition thalach (a : Answers) (o : Overrides) : result Z :=
  match thalach_opt o with
  | Some v =>
      if v >? 0 then Ok v
      else estimate_thalach (age a) (exercise_score a) (stress_score a)
  | None => estimate_thalach (age a) (exercise_score a) (stress_score a)
  end.

Definition exang (a : Answers) (o : Overrides) : Z :=
  match exang_opt o with
  | Some YesNoOpt.Unknown => derive_exang (exercise_score a) (stress_score a)
  | Some YesNoOpt.No => 0
  | Some YesNoOpt.Yes => 1
  | None => derive_exang (exercise_score a) (stress_score a)
  end.

Definition oldpeak (a : Answers) (o : Overrides) : result float :=
  match oldpeak_opt o with
  | Some v =>
      if (0 <? v)%float then Ok v
      else estimate_oldpeak (stress_score a) (weight_score a)
  | None => estimate_oldpeak (stress_score a) (weight_score a)
  end.

Definition slope (a : Answers) (o : Overrides) : Z :=
  match slope_opt o with
  | Some SlopeOpt.Unknown => derive_slope (exercise_score a) (stress_score a)
  | Some SlopeOpt.Upsloping => 0
  | Some SlopeOpt.Flat => 1
  | Some SlopeOpt.Downsloping => 2
  | None => derive_slope (exercise_score a) (stress_score a)
  end.

(** Line 142 has no [> 0] test: a bound [ca_opt] is always taken. *)
Definition ca (a : Answers) (o : Overrides) : Z :=
  match ca_opt o with
  | Some v => v
  | None => derive_ca (age a) (smoke_score a)
  end.

Definition thal (a : Answers) (o : Overrides) : Z :=
  match thal_opt o with
  | Some ThalOpt.Unknown => derive_thal (family_score a)
  | Some ThalOpt.Normal => 1
  | Some ThalOpt.Fixed_defect => 2
  | Some ThalOpt.Reversible_defect => 3
  | None => derive_thal (family_score a)
  end.

Definition cp (a : Answers) : Z :=
  derive_cp (stress_score a) (exercise_score a) (smoke_score a).

(** ** The feature vector (lines 159-173) *)

Module FV.
Record t : Type := {
  age : Z;
  sex : Z;
  cp : Z;
  trestbps : Z;
  chol : Z;
  fbs : Z;
  restecg : Z;
  thalach : Z;
  exang : Z;
  oldpeak : float;
  slope : Z;
  ca : Z;
  thal : Z
}.
End FV.

(** The thirteen variables as they stand after line 144, given the four that
    needed a computation that can raise. *)
Definition vector (a : Answers) (o : Overrides)
    (v_trestbps v_chol v_thalach : Z) (v_oldpeak : float) : FV.t :=
  {| FV.age := age a;
     FV.sex := sex a;
     FV.cp := cp a;
     FV.trestbps := v_trestbps;
     FV.chol := v_chol;
     FV.fbs := fbs a o;
     FV.restecg := restecg o;
     FV.thalach := v_thalach;
     FV.exang := exang a o;
     FV.oldpeak := v_oldpeak;
     FV.slope := slope a o;
     FV.ca := ca a o;
     FV.thal := thal a o |}.

(** Lines 134-144, in the order of the script. *)
Definition features (a : Answers) (o : Overrides) : result FV.t :=
  v_trestbps <- trestbps a o ;;
  v_chol <- chol a o ;;
  v_thalach <- thalach a o ;;
  v_oldpeak <- oldpeak a o ;;
  Ok (vector a o v_trestbps v_chol v_thalach v_oldpeak).

Fixpoint floats_of_ints (l : list Z) : result (list float) :=
  match l with
  | [] => Ok []
  | n :: l' =>
      x <- Py.float_of_int n ;;
      xs <- floats_of_ints l' ;;
      Ok (x :: xs)
  end.

(** [np.array([[...]])] of twelve ints and one float: one row of float64. *)
Definition X (v : FV.t) : result (list (list float)) :=
  front <- floats_of_ints
             [FV.age v; FV.sex v; FV.cp v; FV.trestbps v; FV.chol v; FV.fbs v;
              FV.restecg v; FV.thalach v; FV.exang v] ;;
  back <- floats_of_ints [FV.slope v; FV.ca v; FV.thal v] ;;
  Ok [front ++ FV.oldpeak v :: back].

(** The names of the thirteen columns, and the value of each in a vector
    (integers and the one float kept apart). *)
Inductive Field : Type :=
| F_age | F_sex | F_cp | F_trestbps | F_chol | F_fbs | F_restecg
| F_thalach | F_exang | F_oldpeak | F_slope | F_ca | F_thal.

Inductive Value : Type :=
| VInt (n : Z)
| VFloat (x : float).

Definition get (f : Field) (v : FV.t) : Value :=
  match f with
  | F_age => VInt (FV.age v)
  | F_sex => VInt (FV.sex v)
  | F_cp => VInt (FV.cp v)
  | F_trestbps => VInt (FV.trestbps v)
  | F_chol => VInt (FV.chol v)
  | F_fbs => VInt (FV.fbs v)
  | F_restecg => VInt (FV.restecg v)
  | F_thalach => VInt (FV.thalach v)
  | F_exang => VInt (FV.exang v)
  | F_oldpeak => VFloat (FV.oldpeak v)
  | F_slope => VInt (FV.slope v)
  | F_ca => VInt (FV.ca v)
  | F_thal => VInt (FV.thal v)
  end.

(** A single clinical value entered in the expander. *)
Inductive Override : Type :=
| O_trestbps (v : Z)
| O_chol (v : Z)
| O_fbs (c : YesNoOpt.t)
| O_restecg (c : RestEcgOpt.t)
| O_thalach (v : Z)
| O_exang (c : YesNoOpt.t)
| O_oldpeak (x : float)
| O_slope (c : SlopeOpt.t)
| O_ca (v : Z)
| O_thal (c : ThalOpt.t).

Definition field_of (ov : Override) : Field :=
  match ov with
  | O_trestbps _ => F_trestbps
  | O_chol _ => F_chol
  | O_fbs _ => F_fbs
  | O_restecg _ => F_restecg
  | O_thalach _ => F_thalach
  | O_exang _ => F_exang
  | O_oldpeak _ => F_oldpeak
  | O_slope _ => F_slope
  | O_ca _ => F_ca
  | O_thal _ => F_thal
  end.

(** The widget values after the user has set one of them. *)
Definition supply (ov : Override) (o : Overrides) : Overrides :=
  match ov with
  | O_trestbps v =>
      {| trestbps_opt := Some v; chol_opt := chol_opt o; fbs_opt := fbs_opt o;
         restecg_opt := restecg_opt o; thalach_opt := thalach_opt o;
         exang_opt := exang_opt o; oldpeak_opt := oldpeak_opt o;
         slope_opt := slope_opt o; ca_opt := ca_opt o; thal_opt := thal_opt o |}
  | O_chol v =>
      {| trestbps_opt := trestbps_opt o; chol_opt := Some v; fbs_opt := fbs_opt o;
         restecg_opt := restecg_opt o; thalach_opt := thalach_opt o;
         exang_opt := exang_opt o; oldpeak_opt := oldpeak_opt o;
         slope_opt := slope_opt o; ca_opt := ca_opt o; thal_opt := thal_opt o |}
  | O_fbs c =>
      {| trestbps_opt := trestbps_opt o; chol_opt := chol_opt o; fbs_opt := Some c;
         restecg_opt := restecg_opt o; thalach_opt := thalach_opt o;
         exang_opt := exang_opt o; oldpeak_opt := oldpeak_opt o;
         slope_opt := slope_opt o; ca_opt := ca_opt o; thal_opt := thal_opt o |}
  | O_restecg c =>
      {| trestbps_opt := trestbps_opt o; chol_opt := chol_opt o; fbs_opt := fbs_opt o;
         restecg_opt := Some c; thalach_opt := thalach_opt o;
         exang_opt := exang_opt o; oldpeak_opt := oldpeak_opt o;
         slope_opt := slope_opt o; ca_opt := ca_opt o; thal_opt := thal_opt o |}
  | O_thalach v =>
      {| trestbps_opt := trestbps_opt o; chol_opt := chol_opt o; fbs_opt := fbs_opt o;
         restecg_opt := restecg_opt o; thalach_opt := Some v;
         exang_opt := exang_opt o; oldpeak_opt := oldpeak_opt o;
         slope_opt := slope_opt o; ca_opt := ca_opt o; thal_opt := thal_opt o |}
  | O_exang c =>
      {| trestbps_opt := trestbps_opt o; chol_opt := chol_opt o; fbs_opt := fbs_opt o;
         restecg_opt := restecg_opt o; thalach_opt := thalach_opt o;
         exang_opt := Some c; oldpeak_opt := oldpeak_opt o;
         slope_opt := slope_opt o; ca_opt := ca_opt o; thal_opt := thal_opt o |}
  | O_oldpeak x =>
      {| trestbps_opt := trestbps_opt o; chol_opt := chol_opt o; fbs_opt := fbs_opt o;
         restecg_opt := restecg_opt o; thalach_opt := thalach_opt o;
         exang_opt := exang_opt o; oldpeak_opt := Some x;
         slope_opt := slope_opt o; ca_opt := ca_opt o; thal_opt := thal_opt o |}
  | O_slope c =>
      {| trestbps_opt := trestbps_opt o; chol_opt := chol_opt o; fbs_opt := fbs_opt o;
         restecg_opt := restecg_opt o; thalach_opt := thalach_opt o;
         exang_opt := exang_opt o; oldpeak_opt := oldpeak_opt o;
         slope_opt := Some c; ca_opt := ca_opt o; thal_opt := thal_opt o |}
  | O_ca v =>
      {| trestbps_opt := trestbps_opt o; chol_opt := chol_opt o; fbs_opt := fbs_opt o;
         restecg_opt := restecg_opt o; thalach_opt := thalach_opt o;
         exang_opt := exang_opt o; oldpeak_opt := oldpeak_opt o;
         slope_opt := slope_opt o; ca_opt := Some v; thal_opt := thal_opt o |}
  | O_thal c =>
      {| trestbps_opt := trestbps_opt o; chol_opt := chol_opt o; fbs_opt := fbs_opt o;
         restecg_opt := restecg_opt o; thalach_opt := thalach_opt o;
         exang_opt := exang_opt o; oldpeak_opt := oldpeak_opt o;
         slope_opt := slope_opt o; ca_opt := ca_opt o; thal_opt := Some c |}
  end.

(** The bounds of the widget the value was entered in. *)
Definition in_bounds (ov : Override) : Prop :=
  match ov with
  | O_trestbps v => 0 <= v <= 300
  | O_chol v => 0 <= v <= 800
  | O_thalach v => 0 <= v <= 230
  | O_ca v => 0 <= v <= 4
  | O_oldpeak x => (0 <=? x)%float = true /\ (x <=? 10)%float = true
  | O_fbs _ | O_restecg _ | O_exang _ | O_slope _ | O_thal _ => True
  end.

(** Meaningfully non-default: nonzero for the numeric fields, not "Unknown"
    for the categorical ones. *)
Definition non_default (ov : Override) : Prop :=
  match ov with
  | O_trestbps v | O_chol v | O_thalach v | O_ca v => v <> 0
  | O_oldpeak x => (x =? 0)%float = false
  | O_fbs c | O_exang c => c <> YesNoOpt.Unknown
  | O_restecg c => c <> RestEcgOpt.Unknown
  | O_slope c => c <> SlopeOpt.Unknown
  | O_thal c => c <> ThalOpt.Unknown
  end.

(** The number a supplied value stands for in the feature vector; "Unknown"
    stands for none. *)
Definition supplied (ov : Override) : option Value :=
  match ov with
  | O_trestbps v | O_chol v | O_thalach v | O_ca v => Some (VInt v)
  | O_oldpeak x => Some (VFloat x)
  | O_fbs c | O_exang c =>
      match c with
      | YesNoOpt.Unknown => None
      | YesNoOpt.No => Some (VInt 0)
      | YesNoOpt.Yes => Some (VInt 1)
      end
  | O_restecg c =>
      match c with
      | RestEcgOpt.Unknown => None
      | RestEcgOpt.Normal => Some (VInt 0)
      | RestEcgOpt.ST_T_wave_abnormality => Some (VInt 1)
      | RestEcgOpt.Left_ventricular_hypertrophy => Some (VInt 2)
      end
  | O_slope c =>
      match c with
      | SlopeOpt.Unknown => None
      | SlopeOpt.Upsloping => Some (VInt 0)
      | SlopeOpt.Flat => Some (VInt 1)
      | SlopeOpt.Downsloping => Some (VInt 2)
      end
  | O_thal c =>
      match c with
      | ThalOpt.Unknown => None
      | ThalOpt.Normal => Some (VInt 1)
      | ThalOpt.Fixed_defect => Some (VInt 2)
      | ThalOpt.Reversible_defect => Some (VInt 3)
      end
  end.

(** ** Prediction (lines 7-9 and 158-177) *)

(** The unpickled classifier, as far as the script uses it. *)
Record Model : Type := {
  predict_proba : list (list float) -> result (list (list float))
}.

Definition pred_label (pred_prob : float) : string :=
  if (0.5 <? pred_prob)%float then "High Risk 💔" else "Low Risk ❤️".

Definition risk_pct (pred_prob : float) : float :=
  Py.round1 (pred_prob * 100)%float.

Record Prediction : Type := {
  prob : float;
  label : string;
  pct : float
}.

Section Inference.

(** [open(path, "rb")]: the bytes of the file, [None] when there is none. *)
Variable open_rb : string -> option (list Byte.byte).

(** [pickle.load]: raises on bytes that are not a pickled object. *)
Variable pickle_load : list Byte.byte -> result Model.

Definition load_model : result Model :=
  match open_rb "model.pkl" with
  | None => Raise FileNotFoundError
  | Some data => pickle_load data
  end.

Definition predict (model : Model) (v : FV.t) : result Prediction :=
  x <- X v ;;
  proba <- predict_proba model x ;;
  row <- Py.getitem proba 0 ;;
  pred_prob <- Py.getitem row 1 ;;
  Ok {| prob := pred_prob;
        label := pred_label pred_prob;
        pct := risk_pct pred_prob |}.

(** One run of the script: the model is loaded first; the prediction is made
    only when the button was clicked. *)
Definition app (a : Answers) (o : Overrides) (submitted : bool)
  : result (option Prediction) :=
  model <- load_model ;;
  v <- features a o ;;
  if submitted then
    p <- predict model v ;;
    Ok (Some p)
  else Ok None.

End Inference.

(** ** The training script ([train_model.py]) *)

Module Train.

(** pandas, scikit-learn and pickle are external: the script is embedded over
    their interface.  A seeded operation is a function of its arguments, the
    seed among them. *)
Class Library : Type := {
  DataFrame : Type;
  Series : Type;
  Classifier : Type;
  (** [pd.read_csv(path)] *)
  read_csv : string -> result DataFrame;
  (** [df.drop(name, axis=1)] *)
  drop : DataFrame -> string -> result DataFrame;
  (** [df[name]] *)
  column : DataFrame -> string -> result Series;
  (** [train_test_split(X, y, test_size=.., random_state=..)] *)
  train_test_split :
    DataFrame -> Series -> float -> Z ->
    result (DataFrame * DataFrame * Series * Series);
  (** [RandomForestClassifier(n_estimators=.., random_state=..)] *)
  RandomForestClassifier : Z -> Z -> Classifier;
  (** [model.fit(X, y)]: the classifier after fitting *)
  fit : Classifier -> DataFrame -> Series -> result Classifier;
  (** the bytes [pickle.dump] writes for a classifier *)
  dumps : Classifier -> list Byte.byte
}.

(** The library calls and writes of a run, in order. *)
Inductive Call : Type :=
| Call_read_csv (path : string)
| Call_train_test_split (test_size : float) (random_state : Z)
| Call_RandomForestClassifier (n_estimators : Z) (random_state : Z)
| Call_fit
| Call_dump (path : string) (data : list Byte.byte)
| Call_print (msg : string).

(** A run threads the log of calls made so far; an exception ends the run and
    keeps the log. *)
Definition M (A : Type) : Type := list Call -> result A * list Call.

Definition ret {A : Type} (a : A) : M A := fun log => (Ok a, log).

Definition mbind {A B : Type} (c : M A) (k : A -> M B) : M B :=
  fun log =>
    match c log with
    | (Ok a, log') => k a log'
    | (Raise e, log') => (Raise e, log')
    end.

Definition lift {A : Type} (r : result A) : M A := fun log => (r, log).

Definition emit (c : Call) : M unit := fun log => (Ok tt, log ++ [c]).

Notation "x <~ c ;; k" := (mbind c (fun x => k))
  (at level 61, c at next level, right associativity).

Section Script.

Context {L : Library}.

Definition do_read_csv (path : string) : M DataFrame :=
  _ <~ emit (Call_read_csv path) ;;
  lift (read_csv path).

Definition do_train_test_split (X : DataFrame) (y : Series)
    (test_size : float) (random_state : Z)
  : M (DataFrame * DataFrame * Series * Series) :=
  _ <~ emit (Call_train_test_split test_size random_state) ;;
  lift (train_test_split X y test_size random_state).

Definition do_RandomForestClassifier (n_estimators random_state : Z)
  : M Classifier :=
  _ <~ emit (Call_RandomForestClassifier n_estimators random_state) ;;
  ret (RandomForestClassifier n_estimators random_state).

Definition do_fit (model : Classifier) (X : DataFrame) (y : Series)
  : M Classifier :=
  _ <~ emit Call_fit ;;
  lift (fit model X y).

Definition do_dump (model : Classifier) (path : string) : M unit :=
  emit (Call_dump path (dumps model)).

(** The script, top to bottom.  [model.fit] updates [model] in place, so the
    object dumped on line 20 is the fitted one. *)
Definition train_model : M unit :=
  df <~ do_read_csv "heart (1).csv" ;;
  X <~ lift (drop df "target") ;;
  y <~ lift (column df "target") ;;
  split <~ do_train_test_split X y 0.2 42 ;;
  let '(X_train, X_test, y_train, y_test) := split in
  model <~ do_RandomForestClassifier 200 42 ;;
  model <~ do_fit model X_train y_train ;;
  _ <~ do_dump model "model.pkl" ;;
  emit (Call_print "✅ Model trained and saved successfully!").

End Script.

End Train.

(** ** Finite tables, for checking the float estimates value by value *)

Definition Zrange (lo : Z) (n : nat) : list Z :=
  map (fun k => lo + Z.of_nat k) (seq 0 n).

Definition is_ok_with {A : Type} (r : result A) (p : A -> bool) : bool :=
  match r with
  | Ok a => p a
  | Raise _ => false
  end.

(** The resting blood pressure formula in exact arithmetic, rounded down. *)
Definition trestbps_exact (age stress_score weight_score : Z) : Z :=
  110 + (age - 18) / 5 + stress_score * 8 + weight_score * 7.

Definition trestbps_check (age stress_score weight_score : Z) : bool :=
  is_ok_with (estimate_trestbps age stress_score weight_score)
    (Z.eqb (trestbps_exact age stress_score weight_score)).

Definition smoke_penalty_of (smoke_score : Z) : Z :=
  if smoke_score =? 0 then 0 else if smoke_score =? 1 then 15 else 30.

Definition diet_adjust_of (diet_score : Z) : Z :=
  if diet_score =? 0 then 25 else if diet_score =? 1 then 10 else -10.

(** The cholesterol formula in exact arithmetic, rounded down. *)
Definition chol_exact (age smoke_score diet_score : Z) : Z :=
  160 + 4 * (age - 18) / 5 + smoke_penalty_of smoke_score
  + diet_adjust_of diet_score.

Definition chol_check (age smoke_score diet_score : Z) : bool :=
  is_ok_with (estimate_chol age smoke_score diet_score)
    (Z.eqb (chol_exact age smoke_score diet_score)).

Definition small_int_check (n : Z) : bool :=
  is_ok_with (Py.float_of_int n) (fun _ => true).

(** The worked example of the specification. *)
Definition example_answers : Answers := {|
  age := 45;
  gender := Gender.Male;
  smoking := Smoking.Daily;
  exercise := Exercise.Rarely;
  diet := Diet.Poor;
  stress := Stress.High;
  family_history := FamilyHistory.Yes;
  weight := Weight.Obese;
  sleep := Sleep.Poor
|}.

(** An input on which the vessel count can be derived as 1: sixty years old and
    smoking daily. *)
Definition older_smoker : Answers := {|
  age := 60;
  gender := Gender.Male;
  smoking := Smoking.Daily;
  exercise := Exercise.Rarely;
  diet := Diet.Poor;
  stress := Stress.Low;
  family_history := FamilyHistory.No;
  weight := Weight.Normal;
  sleep := Sleep.Poor
|}.

(** The override policy in the words of the specification, for the vessel
    count: the supplied value when it is nonzero, the derived one otherwise. *)
Definition ca_policy (a : Answers) (o : Overrides) : Z :=
  match ca_opt o with
  | Some v => if v =? 0 then derive_ca (age a) (smoke_score a) else v
  | None => derive_ca (age a) (smoke_score a)
  end.

(** The twelve integer columns all fit a table of small integers. *)
Definition small_columns (v : FV.t) : Prop :=
  Forall (fun n => -1000 <= n <= 1000)
    [FV.age v; FV.sex v; FV.cp v; FV.trestbps v; FV.chol v; FV.fbs v;
     FV.restecg v; FV.thalach v; FV.exang v; FV.slope v; FV.ca v; FV.thal v].

(** The rational number a float stands for; none for NaN and the infinities. *)
Definition Q_of_float (x : float) : option Q :=
  match Prim2SF x with
  | S754_zero _ => Some (0 # 1)
  | S754_finite s m e =>
      let mag :=
        if 0 <=? e then inject_Z (Z.pos m * 2 ^ e)
        else Z.pos m # (2 ^ Z.to_pos (- e)) in
      Some (if s then Qopp mag else mag)
  | S754_infinity _ | S754_nan => None
  end.

(** The ways loading the artifact fails: there is no file, or its bytes do not
    unpickle. *)
Inductive load_failure (open_rb : string -> option (list Byte.byte))
    (pickle_load : list Byte.byte -> result Model) : exn -> Prop :=
| artifact_missing :
    open_rb "model.pkl"%string = None ->
    load_failure open_rb pickle_load FileNotFoundError
| artifact_malformed (data : list Byte.byte) (e : exn) :
    open_rb "model.pkl"%string = Some data ->
    pickle_load data = Raise e ->
    load_failure open_rb pickle_load e.

(** A small instance of the library interface, to run the training script on:
    rows are lists of integers with the target last, the split keeps the first
    four rows of five for training, and a classifier records its settings and
    the number of rows it was fitted on. *)
Definition toy_library : Train.Library := {|
  Train.DataFrame := list (list Z);
  Train.Series := list Z;
  Train.Classifier := Z * Z * option nat;
  Train.read_csv := fun _ =>
    Ok [[63; 1; 1]; [37; 1; 1]; [41; 0; 1]; [56; 1; 0]; [57; 0; 0]];
  Train.drop := fun df _ => Ok (map (@removelast Z) df);
  Train.column := fun df _ => Ok (map (fun row => last row 0) df);
  Train.train_test_split := fun X y _ _ =>
    Ok (firstn 4 X, skipn 4 X, firstn 4 y, skipn 4 y);
  Train.RandomForestClassifier := fun n_estimators random_state =>
    (n_estimators, random_state, None);
  Train.fit := fun model X _ => Ok (fst model, Some (List.length X));
  Train.dumps := fun model =>
    match snd model with
    | Some _ => [Byte.x80; Byte.x04]
    | None => [Byte.x80]
    end
|}.

(** ** What is shown after a prediction ([app.py], lines 183-217) *)



(** The advice widgets of lines 212-217. *)
Inductive Advice : Type :=
| st_success (msg : string)
| st_error (msg : string)
| st_info (msg : string).

Definition advice (pred_label : string) : list Advice :=
  if String.eqb pred_label "Low Risk ❤️" then
    [st_success
       "You're doing well! Keep up regular activity, balanced meals, and enough rest."]
  else
    [st_error
       "You may be at a higher heart risk. Consider improving diet, exercising more, and managing stress.";
     st_info "🩷 Small, steady lifestyle changes make a big difference over time."].

(** ** Which answer reaches which column *)




(** ** The ranges of the columns *)

Definition in_schema (v : FV.t) : Prop :=
  18 <= FV.age v <= 100 /\
  0 <= FV.sex v <= 1 /\
  0 <= FV.cp v <= 2 /\
  1 <= FV.trestbps v <= 300 /\
  1 <= FV.chol v <= 800 /\
  0 <= FV.fbs v <= 1 /\
  0 <= FV.restecg v <= 2 /\
  1 <= FV.thalach v <= 230 /\
  0 <= FV.exang v <= 1 /\
  ((0 <? FV.oldpeak v)%float = true /\ (FV.oldpeak v <=? 10)%float = true) /\
  0 <= FV.slope v <= 2 /\
  0 <= FV.ca v <= 4 /\
  1 <= FV.thal v <= 3.

(** An ST depression estimate is a float between 0.2 and 2 that rounding to
    one decimal leaves alone. *)
Definition oldpeak_check (stress_score weight_score : Z) : bool :=
  is_ok_with (estimate_oldpeak stress_score weight_score)
    (fun v => (0.2 <=? v)%float && (v <=? 2)%float && (0 <? v)%float
              && (Py.round1 v =? v)%float).

(** A library whose data set is missing. *)
Definition no_data_library : Train.Library := {|
  Train.DataFrame := list (list Z);
  Train.Series := list Z;
  Train.Classifier := Z * Z * option nat;
  Train.read_csv := fun _ => Raise FileNotFoundError;
  Train.drop := fun df _ => Ok df;
  Train.column := fun df _ => Ok [];
  Train.train_test_split := fun X y _ _ => Ok (X, X, y, y);
  Train.RandomForestClassifier := fun n_estimators random_state =>
    (n_estimators, random_state, None);
  Train.fit := fun model _ _ => Ok model;
  Train.dumps := fun _ => []
|}.

(** A classifier that answers with the same two probabilities for one row. *)
Definition constant_model (p0 p1 : float) : Model :=
  {| predict_proba := fun _ => Ok [[p0; p1]] |}.

(** A classifier whose answer has a single column. *)
Definition one_column_model (p : float) : Model :=
  {| predict_proba := fun _ => Ok [[p]] |}.

(** All ten clinical values entered. *)
Definition full_overrides : Overrides := {|
  trestbps_opt := Some 130;
  chol_opt := Some 240;
  fbs_opt := Some YesNoOpt.No;
  restecg_opt := Some RestEcgOpt.Normal;
  thalach_opt := Some 150;
  exang_opt := Some YesNoOpt.Yes;
  oldpeak_opt := Some 1.5%float;
  slope_opt := Some SlopeOpt.Flat;
  ca_opt := Some 2;
  thal_opt := Some ThalOpt.Reversible_defect
|}.

(** * Properties *)

(** ** Python builtins on sample values *)

Example getitem_in_range : Py.getitem [0; 15; 30] 2 = Ok 30.
Proof. reflexivity. Qed.

Example getitem_past_end : Py.getitem [0; 15; 30] 3 = Raise IndexError.
Proof. reflexivity. Qed.

Example getitem_negative : Py.getitem [0; 15; 30] (-1) = Ok 30.
Proof. reflexivity. Qed.

Example int_of_float_truncates : Py.int_of_float 152.4%float = Ok 152.
Proof. vm_compute. reflexivity. Qed.

Example int_of_float_toward_zero : Py.int_of_float (-2.75)%float = Ok (-2).
Proof. vm_compute. reflexivity. Qed.

Example float_of_int_exact : Py.float_of_int 27 = Ok 27%float.
Proof. vm_compute. reflexivity. Qed.

Example float_of_int_overflow : Py.float_of_int (2 ^ 1024) = Raise OverflowError.
Proof. vm_compute. reflexivity. Qed.

Example round1_half_even : Py.round1 0.25%float = 0.2%float.
Proof. vm_compute. reflexivity. Qed.

Example round1_binary_value : Py.round1 0.35%float = 0.3%float.
Proof. vm_compute. reflexivity. Qed.

Example round1_negative_zero : Py.round1 (-0.04)%float = neg_zero.
Proof. vm_compute. reflexivity. Qed.

Example round1_up : Py.round1 73.26%float = 73.3%float.
Proof. vm_compute. reflexivity. Qed.

(** ** Ranges and tables *)

Lemma Zrange_In (lo : Z) (n : nat) (x : Z) :
  lo <= x < lo + Z.of_nat n -> In x (Zrange lo n).
Proof.
  intros Hx. unfold Zrange. apply in_map_iff.
  exists (Z.to_nat (x - lo)). split; [lia|].
  apply in_seq. lia.
Qed.

Lemma is_ok_with_inv {A : Type} (r : result A) (p : A -> bool) :
  is_ok_with r p = true -> exists a, r = Ok a /\ p a = true.
Proof.
  destruct r as [a|e]; simpl; intros H; [eauto | discriminate].
Qed.

Lemma smoke_score_range (a : Answers) : 0 <= smoke_score a <= 2.
Proof. unfold smoke_score. destruct (smoking a); lia. Qed.

Lemma exercise_score_range (a : Answers) : 0 <= exercise_score a <= 3.
Proof. unfold exercise_score. destruct (exercise a); lia. Qed.

Lemma diet_score_range (a : Answers) : 0 <= diet_score a <= 2.
Proof. unfold diet_score. destruct (diet a); lia. Qed.

Lemma stress_score_range (a : Answers) : 0 <= stress_score a <= 2.
Proof. unfold stress_score. destruct (stress a); lia. Qed.

Lemma weight_score_range (a : Answers) : 0 <= weight_score a <= 3.
Proof. unfold weight_score. destruct (weight a); lia. Qed.

Lemma sleep_score_range (a : Answers) : 0 <= sleep_score a <= 2.
Proof. unfold sleep_score. destruct (sleep a); lia. Qed.

Lemma Zrange_forallb (lo : Z) (n : nat) (p : Z -> bool) :
  forallb p (Zrange lo n) = true ->
  forall x, lo <= x < lo + Z.of_nat n -> p x = true.
Proof.
  intros H x Hx. rewrite forallb_forall in H. apply H, Zrange_In, Hx.
Qed.

Lemma trestbps_table :
  forallb (fun a =>
    forallb (fun s =>
      forallb (fun w => trestbps_check a s w) (Zrange 0 4))
      (Zrange 0 3))
    (Zrange 18 83) = true.
Proof. vm_compute. reflexivity. Qed.

Lemma chol_table :
  forallb (fun a =>
    forallb (fun s =>
      forallb (fun d => chol_check a s d) (Zrange 0 3))
      (Zrange 0 3))
    (Zrange 18 83) = true.
Proof. vm_compute. reflexivity. Qed.

Lemma small_int_table : forallb small_int_check (Zrange (-1000) 2001) = true.
Proof. vm_compute. reflexivity. Qed.

(** The float computation of the resting blood pressure never falls below the
    exact value: it is [110 + (age - 18)/5 + 8 stress + 7 weight] rounded
    down. *)
Lemma estimate_trestbps_exact (age ss ws : Z) :
  18 <= age <= 100 -> 0 <= ss <= 2 -> 0 <= ws <= 3 ->
  estimate_trestbps age ss ws = Ok (trestbps_exact age ss ws).
Proof.
  intros Ha Hs Hw.
  pose proof (Zrange_forallb 18 83 _ trestbps_table age ltac:(lia)) as T.
  cbv beta in T.
  pose proof (Zrange_forallb 0 3 _ T ss ltac:(lia)) as T'.
  cbv beta in T'.
  pose proof (Zrange_forallb 0 4 _ T' ws ltac:(lia)) as T''.
  cbv beta in T''.
  apply is_ok_with_inv in T''. destruct T'' as [v [E Hv]].
  apply Z.eqb_eq in Hv. congruence.
Qed.

Lemma estimate_chol_exact (age ss ds : Z) :
  18 <= age <= 100 -> 0 <= ss <= 2 -> 0 <= ds <= 2 ->
  estimate_chol age ss ds = Ok (chol_exact age ss ds).
Proof.
  intros Ha Hs Hd.
  pose proof (Zrange_forallb 18 83 _ chol_table age ltac:(lia)) as T.
  cbv beta in T.
  pose proof (Zrange_forallb 0 3 _ T ss ltac:(lia)) as T'.
  cbv beta in T'.
  pose proof (Zrange_forallb 0 3 _ T' ds ltac:(lia)) as T''.
  cbv beta in T''.
  apply is_ok_with_inv in T''. destruct T'' as [v [E Hv]].
  apply Z.eqb_eq in Hv. congruence.
Qed.

Lemma float_of_int_small (n : Z) :
  -1000 <= n <= 1000 -> exists x, Py.float_of_int n = Ok x.
Proof.
  intros Hn.
  pose proof (Zrange_forallb (-1000) 2001 _ small_int_table n ltac:(lia)) as T.
  apply is_ok_with_inv in T. destruct T as [x [E _]]. eauto.
Qed.

Lemma estimate_thalach_ok (age es ss : Z) :
  0 <= es <= 3 ->
  exists bonus,
    Py.getitem [-10; -5; 0; 5] es = Ok bonus /\
    estimate_thalach age es ss
    = Ok (Z.max 90 (Z.min 200 (200 - age + bonus - ss * 5))).
Proof.
  intros He.
  assert (C : es = 0 \/ es = 1 \/ es = 2 \/ es = 3) by lia.
  destruct C as [-> | [-> | [-> | ->]]]; eexists; split; reflexivity.
Qed.

Lemma estimate_oldpeak_ok (ss ws : Z) :
  0 <= ss <= 2 -> 0 <= ws <= 3 -> exists x, estimate_oldpeak ss ws = Ok x.
Proof.
  intros Hs Hw. unfold estimate_oldpeak.
  destruct (float_of_int_small ss ltac:(lia)) as [s ->].
  destruct (float_of_int_small (Z.max 0 (ws - 1)) ltac:(lia)) as [w ->].
  simpl. eauto.
Qed.

(** ** The four computed fields are defined on every form submission *)

Lemma trestbps_total (a : Answers) (o : Overrides) :
  valid_answers a -> exists t, trestbps a o = Ok t.
Proof.
  intros Ha. unfold trestbps.
  pose proof (estimate_trestbps_exact (age a) (stress_score a) (weight_score a)
                Ha (stress_score_range a) (weight_score_range a)) as E.
  destruct (trestbps_opt o) as [v|]; [destruct (v >? 0)|]; eauto.
Qed.

Lemma chol_total (a : Answers) (o : Overrides) :
  valid_answers a -> exists c, chol a o = Ok c.
Proof.
  intros Ha. unfold chol.
  pose proof (estimate_chol_exact (age a) (smoke_score a) (diet_score a)
                Ha (smoke_score_range a) (diet_score_range a)) as E.
  destruct (chol_opt o) as [v|]; [destruct (v >? 0)|]; eauto.
Qed.

Lemma thalach_total (a : Answers) (o : Overrides) :
  exists h, thalach a o = Ok h.
Proof.
  unfold thalach.
  destruct (estimate_thalach_ok (age a) (exercise_score a) (stress_score a)
              (exercise_score_range a)) as [b [_ E]].
  destruct (thalach_opt o) as [v|]; [destruct (v >? 0)|]; eauto.
Qed.

Lemma oldpeak_total (a : Answers) (o : Overrides) :
  exists p, oldpeak a o = Ok p.
Proof.
  unfold oldpeak.
  destruct (estimate_oldpeak_ok (stress_score a) (weight_score a)
              (stress_score_range a) (weight_score_range a)) as [x E].
  destruct (oldpeak_opt o) as [v|]; [destruct (0 <? v)%float|]; eauto.
Qed.

Lemma features_total (a : Answers) (o : Overrides) :
  valid_answers a ->
  exists t c h p,
    trestbps a o = Ok t /\ chol a o = Ok c /\
    thalach a o = Ok h /\ oldpeak a o = Ok p /\
    features a o = Ok (vector a o t c h p).
Proof.
  intros Ha.
  destruct (trestbps_total a o Ha) as [t Et].
  destruct (chol_total a o Ha) as [c Ec].
  destruct (thalach_total a o) as [h Eh].
  destruct (oldpeak_total a o) as [p Ep].
  exists t, c, h, p. repeat split; trivial.
  unfold features. rewrite Et, Ec, Eh, Ep. reflexivity.
Qed.

(** ** The worked example *)

(** C1. For age 45, male, daily smoker, rarely exercising, poor diet, high
    stress, family history, obese, poor sleep and an untouched expander, the
    ranks are smoking 2, exercise 0, diet 0, stress 2, weight 3, sleep 0; the
    vector has sex 1, chest-pain type 2, fasting-blood-sugar flag 1 and
    thalassemia code 2; and its resting blood pressure, cholesterol and maximum
    heart rate are the values of the three estimation functions at those ranks,
    namely 152, 236 and 135, which are also the values of the blood-pressure
    and cholesterol formulas in exact arithmetic, rounded down. *)
Theorem example_vector :
  smoke_score example_answers = 2 /\
  exercise_score example_answers = 0 /\
  diet_score example_answers = 0 /\
  stress_score example_answers = 2 /\
  weight_score example_answers = 3 /\
  sleep_score example_answers = 0 /\
  exists v,
    features example_answers no_overrides = Ok v /\
    FV.sex v = 1 /\ FV.cp v = 2 /\ FV.fbs v = 1 /\ FV.thal v = 2 /\
    estimate_trestbps 45 2 3 = Ok (FV.trestbps v) /\
    estimate_chol 45 2 0 = Ok (FV.chol v) /\
    estimate_thalach 45 0 2 = Ok (FV.thalach v) /\
    FV.trestbps v = 152 /\ FV.chol v = 236 /\ FV.thalach v = 135 /\
    FV.trestbps v = trestbps_exact 45 2 3 /\
    FV.chol v = chol_exact 45 2 0.
Proof.
  repeat (split; [reflexivity|]).
  eexists. split; [vm_compute; reflexivity|].
  repeat split; vm_compute; reflexivity.
Qed.

(** ** Maximum heart rate *)

(** C4. For every age from 18 to 100, every exercise rank from 0 to 3 and every
    stress rank from 0 to 2, the maximum heart rate estimate is returned and
    lies between 90 and 200. *)
Theorem estimate_thalach_bounds (age es ss : Z) :
  18 <= age <= 100 -> 0 <= es <= 3 -> 0 <= ss <= 2 ->
  exists v, estimate_thalach age es ss = Ok v /\ 90 <= v <= 200.
Proof.
  intros _ He _.
  destruct (estimate_thalach_ok age es ss He) as [b [_ E]].
  eexists. split; [exact E | lia].
Qed.

Lemma estimate_thalach_bounds_witness :
  (18 <= 45 <= 100 /\ 0 <= 0 <= 3 /\ 0 <= 2 <= 2) /\
  exists v, estimate_thalach 45 0 2 = Ok v /\ 90 <= v <= 200.
Proof.
  split; [lia | apply (estimate_thalach_bounds 45 0 2); lia].
Defined.

(** ** Float comparisons *)

Lemma Prim2SF_zero : Prim2SF 0%float = S754_zero false.
Proof. vm_compute. reflexivity. Qed.

(** A float that is at least zero and not equal to zero is above zero. *)
Lemma float_pos_of_nonneg_nonzero (x : float) :
  (0 <=? x)%float = true -> (x =? 0)%float = false -> (0 <? x)%float = true.
Proof.
  rewrite leb_spec, eqb_spec, ltb_spec, Prim2SF_zero.
  unfold SFleb, SFeqb, SFltb.
  destruct (Prim2SF x) as [s | s | | s m e]; simpl;
    try destruct s; simpl; congruence.
Qed.

(** ** One override at a time leaves the other fields alone *)

Lemma trestbps_frame (a : Answers) (ov : Override) (o : Overrides) :
  field_of ov <> F_trestbps -> trestbps a (supply ov o) = trestbps a o.
Proof. destruct ov; simpl; intros H; try reflexivity; congruence. Qed.

Lemma chol_frame (a : Answers) (ov : Override) (o : Overrides) :
  field_of ov <> F_chol -> chol a (supply ov o) = chol a o.
Proof. destruct ov; simpl; intros H; try reflexivity; congruence. Qed.

Lemma fbs_frame (a : Answers) (ov : Override) (o : Overrides) :
  field_of ov <> F_fbs -> fbs a (supply ov o) = fbs a o.
Proof. destruct ov; simpl; intros H; try reflexivity; congruence. Qed.

Lemma restecg_frame (ov : Override) (o : Overrides) :
  field_of ov <> F_restecg -> restecg (supply ov o) = restecg o.
Proof. destruct ov; simpl; intros H; try reflexivity; congruence. Qed.

Lemma thalach_frame (a : Answers) (ov : Override) (o : Overrides) :
  field_of ov <> F_thalach -> thalach a (supply ov o) = thalach a o.
Proof. destruct ov; simpl; intros H; try reflexivity; congruence. Qed.

Lemma exang_frame (a : Answers) (ov : Override) (o : Overrides) :
  field_of ov <> F_exang -> exang a (supply ov o) = exang a o.
Proof. destruct ov; simpl; intros H; try reflexivity; congruence. Qed.

Lemma oldpeak_frame (a : Answers) (ov : Override) (o : Overrides) :
  field_of ov <> F_oldpeak -> oldpeak a (supply ov o) = oldpeak a o.
Proof. destruct ov; simpl; intros H; try reflexivity; congruence. Qed.

Lemma slope_frame (a : Answers) (ov : Override) (o : Overrides) :
  field_of ov <> F_slope -> slope a (supply ov o) = slope a o.
Proof. destruct ov; simpl; intros H; try reflexivity; congruence. Qed.

Lemma ca_frame (a : Answers) (ov : Override) (o : Overrides) :
  field_of ov <> F_ca -> ca a (supply ov o) = ca a o.
Proof. destruct ov; simpl; intros H; try reflexivity; congruence. Qed.

Lemma thal_frame (a : Answers) (ov : Override) (o : Overrides) :
  field_of ov <> F_thal -> thal a (supply ov o) = thal a o.
Proof. destruct ov; simpl; intros H; try reflexivity; congruence. Qed.

Lemma Ok_inj {A : Type} (x y : A) : Ok x = Ok y -> x = y.
Proof. congruence. Qed.

(** Whatever the other widgets hold, setting one changes at most its own
    column. *)
Lemma override_frame (a : Answers) (ov : Override) (o : Overrides) :
  valid_answers a ->
  exists v0 v1,
    features a o = Ok v0 /\
    features a (supply ov o) = Ok v1 /\
    forall f, f <> field_of ov -> get f v1 = get f v0.
Proof.
  intros Ha.
  destruct (features_total a o Ha) as (t0 & c0 & h0 & p0 & Et0 & Ec0 & Eh0 & Ep0 & E0).
  destruct (features_total a (supply ov o) Ha)
    as (t1 & c1 & h1 & p1 & Et1 & Ec1 & Eh1 & Ep1 & E1).
  exists (vector a o t0 c0 h0 p0), (vector a (supply ov o) t1 c1 h1 p1).
  split; [exact E0|]. split; [exact E1|].
  intros f Hf. destruct f; simpl; try reflexivity; f_equal.
  - apply Ok_inj. rewrite <- Et1, <- Et0. apply trestbps_frame. congruence.
  - apply Ok_inj. rewrite <- Ec1, <- Ec0. apply chol_frame. congruence.
  - apply fbs_frame. congruence.
  - apply restecg_frame. congruence.
  - apply Ok_inj. rewrite <- Eh1, <- Eh0. apply thalach_frame. congruence.
  - apply exang_frame. congruence.
  - apply Ok_inj. rewrite <- Ep1, <- Ep0. apply oldpeak_frame. congruence.
  - apply slope_frame. congruence.
  - apply ca_frame. congruence.
  - apply thal_frame. congruence.
Qed.

(** A supplied value that is within the widget's bounds and is not the default
    is the value of its column. *)
Lemma override_taken (a : Answers) (ov : Override) (o : Overrides) (v1 : FV.t) :
  in_bounds ov -> non_default ov ->
  features a (supply ov o) = Ok v1 ->
  supplied ov = Some (get (field_of ov) v1).
Proof.
  intros Hb Hn E. unfold features in E.
  destruct (trestbps a (supply ov o)) as [t|] eqn:Et; [|discriminate].
  destruct (chol a (supply ov o)) as [cv|] eqn:Ec; [|discriminate].
  destruct (thalach a (supply ov o)) as [h|] eqn:Eh; [|discriminate].
  destruct (oldpeak a (supply ov o)) as [p|] eqn:Ep; [|discriminate].
  simpl in E. injection E as <-.
  destruct ov; simpl in *.
  - unfold trestbps in Et. simpl in Et.
    replace (v >? 0) with true in Et by (symmetry; apply Z.gtb_lt; lia).
    congruence.
  - unfold chol in Ec. simpl in Ec.
    replace (v >? 0) with true in Ec by (symmetry; apply Z.gtb_lt; lia).
    congruence.
  - destruct c; [congruence | reflexivity | reflexivity].
  - destruct c; [congruence | reflexivity ..].
  - unfold thalach in Eh. simpl in Eh.
    replace (v >? 0) with true in Eh by (symmetry; apply Z.gtb_lt; lia).
    congruence.
  - destruct c; [congruence | reflexivity | reflexivity].
  - unfold oldpeak in Ep. simpl in Ep.
    destruct Hb as [Hlo _].
    rewrite (float_pos_of_nonneg_nonzero x Hlo Hn) in Ep. congruence.
  - destruct c; [congruence | reflexivity ..].
  - reflexivity.
  - destruct c; [congruence | reflexivity ..].
Qed.

(** C3. For any answers from the form and any one clinical field, entering a
    non-default value for that field alone, the rest of the expander left
    untouched, gives a vector that agrees with the vector of the untouched
    expander on each of the other twelve columns; the column of the field holds
    the value entered. *)
Theorem single_override_frame (a : Answers) (ov : Override) :
  valid_answers a -> in_bounds ov -> non_default ov ->
  exists v0 v1,
    features a no_overrides = Ok v0 /\
    features a (supply ov no_overrides) = Ok v1 /\
    (forall f, f <> field_of ov -> get f v1 = get f v0) /\
    supplied ov = Some (get (field_of ov) v1).
Proof.
  intros Ha Hb Hn.
  destruct (override_frame a ov no_overrides Ha) as (v0 & v1 & E0 & E1 & Hf).
  exists v0, v1. repeat split; trivial.
  exact (override_taken a ov no_overrides v1 Hb Hn E1).
Qed.

Lemma single_override_frame_witness :
  (valid_answers example_answers /\
   in_bounds (O_chol 240) /\ non_default (O_chol 240)) /\
  exists v0 v1,
    features example_answers no_overrides = Ok v0 /\
    features example_answers (supply (O_chol 240) no_overrides) = Ok v1 /\
    (forall f, f <> field_of (O_chol 240) -> get f v1 = get f v0) /\
    supplied (O_chol 240) = Some (get (field_of (O_chol 240)) v1).
Proof.
  assert (Ha : valid_answers example_answers) by (unfold valid_answers; simpl; lia).
  assert (Hb : in_bounds (O_chol 240)) by (simpl; lia).
  assert (Hn : non_default (O_chol 240)) by (simpl; lia).
  split; [auto | exact (single_override_frame example_answers (O_chol 240) Ha Hb Hn)].
Defined.

(** ** The vessel count *)

(** The four sibling numeric fields fall back to their estimate on the default
    entry 0. *)
Lemma numeric_default_falls_back (a : Answers) (o : Overrides) :
  (trestbps_opt o = Some 0 ->
     trestbps a o
     = estimate_trestbps (age a) (stress_score a) (weight_score a)) /\
  (chol_opt o = Some 0 ->
     chol a o = estimate_chol (age a) (smoke_score a) (diet_score a)) /\
  (thalach_opt o = Some 0 ->
     thalach a o
     = estimate_thalach (age a) (exercise_score a) (stress_score a)) /\
  (oldpeak_opt o = Some 0%float ->
     oldpeak a o = estimate_oldpeak (stress_score a) (weight_score a)).
Proof.
  unfold trestbps, chol, thalach, oldpeak.
  repeat split; intros ->; reflexivity.
Qed.

(** The five categorical fields fall back to their derivation on "Unknown". *)
Lemma categorical_default_falls_back (a : Answers) (o : Overrides) :
  (fbs_opt o = Some YesNoOpt.Unknown ->
     fbs a o = derive_fbs (age a) (diet_score a) (weight_score a)) /\
  (restecg_opt o = Some RestEcgOpt.Unknown -> restecg o = derive_restecg) /\
  (exang_opt o = Some YesNoOpt.Unknown ->
     exang a o = derive_exang (exercise_score a) (stress_score a)) /\
  (slope_opt o = Some SlopeOpt.Unknown ->
     slope a o = derive_slope (exercise_score a) (stress_score a)) /\
  (thal_opt o = Some ThalOpt.Unknown -> thal a o = derive_thal (family_score a)).
Proof.
  unfold fbs, restecg, exang, slope, thal.
  repeat split; intros ->; reflexivity.
Qed.

(** C2. The override policy breaks on the vessel count.  For a sixty-year-old
    daily smoker who leaves the expander untouched, the vessel slider holds its
    default 0, the derivation gives 1, and so does the policy as stated; the
    vector nevertheless carries 0. *)
Theorem ca_default_not_derived :
  ca_opt no_overrides = Some 0 /\
  derive_ca (age older_smoker) (smoke_score older_smoker) = 1 /\
  ca_policy older_smoker no_overrides = 1 /\
  exists v, features older_smoker no_overrides = Ok v /\ FV.ca v = 0.
Proof.
  repeat (split; [reflexivity|]).
  eexists. split; vm_compute; reflexivity.
Qed.

(** ** Chest pain and resting ECG *)

(** C9. Whatever the expander holds, the chest-pain column is the rule-based
    derivation from the stress, exercise and smoking ranks: two submissions
    with the same answers and any two sets of clinical inputs both yield a
    vector, with the same chest-pain type. *)
Theorem cp_ignores_overrides (a : Answers) (o1 o2 : Overrides) :
  valid_answers a ->
  exists v1 v2,
    features a o1 = Ok v1 /\
    features a o2 = Ok v2 /\
    FV.cp v1 = derive_cp (stress_score a) (exercise_score a) (smoke_score a) /\
    FV.cp v2 = FV.cp v1.
Proof.
  intros Ha.
  destruct (features_total a o1 Ha) as (t1 & c1 & h1 & p1 & _ & _ & _ & _ & E1).
  destruct (features_total a o2 Ha) as (t2 & c2 & h2 & p2 & _ & _ & _ & _ & E2).
  eexists. eexists. split; [exact E1|]. split; [exact E2|].
  split; reflexivity.
Qed.

Lemma cp_ignores_overrides_witness :
  valid_answers example_answers /\
  exists v1 v2,
    features example_answers no_overrides = Ok v1 /\
    features example_answers (supply (O_thalach 150) no_overrides) = Ok v2 /\
    FV.cp v1
    = derive_cp (stress_score example_answers) (exercise_score example_answers)
        (smoke_score example_answers) /\
    FV.cp v2 = FV.cp v1.
Proof.
  assert (Ha : valid_answers example_answers) by (unfold valid_answers; simpl; lia).
  split; [exact Ha|].
  exact (cp_ignores_overrides example_answers no_overrides
           (supply (O_thalach 150) no_overrides) Ha).
Defined.

(** C10. The resting-ECG derivation is the constant 0: when the resting-ECG
    select box holds "Unknown" (or the name is unbound), the resting-ECG
    variable is 0 whatever the answers and the age, and for any answers from
    the form a vector is produced whose resting-ECG column is 0. *)
Theorem restecg_unknown_is_zero (a : Answers) (o : Overrides) :
  valid_answers a ->
  restecg_opt o = Some RestEcgOpt.Unknown \/ restecg_opt o = None ->
  derive_restecg = 0 /\
  restecg o = 0 /\
  exists v, features a o = Ok v /\ FV.restecg v = 0.
Proof.
  intros Ha Ho.
  assert (Hr : restecg o = 0).
  { unfold restecg. destruct Ho as [-> | ->]; reflexivity. }
  split; [reflexivity|]. split; [exact Hr|].
  destruct (features_total a o Ha) as (t & c & h & p & _ & _ & _ & _ & E).
  eexists. split; [exact E|]. exact Hr.
Qed.

Lemma restecg_unknown_is_zero_witness :
  (valid_answers example_answers /\
   (restecg_opt no_overrides = Some RestEcgOpt.Unknown \/
    restecg_opt no_overrides = None)) /\
  derive_restecg = 0 /\
  restecg no_overrides = 0 /\
  exists v, features example_answers no_overrides = Ok v /\ FV.restecg v = 0.
Proof.
  assert (Ha : valid_answers example_answers) by (unfold valid_answers; simpl; lia).
  assert (Ho : restecg_opt no_overrides = Some RestEcgOpt.Unknown \/
               restecg_opt no_overrides = None) by (left; reflexivity).
  split; [split; assumption|].
  exact (restecg_unknown_is_zero example_answers no_overrides Ha Ho).
Defined.

(** ** The row handed to the classifier *)

Lemma floats_of_ints_total (l : list Z) :
  Forall (fun n => -1000 <= n <= 1000) l ->
  exists xs, floats_of_ints l = Ok xs /\ List.length xs = List.length l.
Proof.
  induction 1 as [|n l Hn _ IH]; simpl.
  - exists []. split; reflexivity.
  - destruct (float_of_int_small n Hn) as [x ->].
    destruct IH as [xs [-> Hlen]]. simpl.
    exists (x :: xs). split; [reflexivity | simpl; congruence].
Qed.

Lemma X_total (v : FV.t) :
  small_columns v -> exists row, X v = Ok [row] /\ List.length row = 13%nat.
Proof.
  unfold small_columns. intros H.
  repeat match goal with
         | H : Forall _ (_ :: _) |- _ => inversion H; subst; clear H
         end.
  unfold X.
  edestruct (floats_of_ints_total
               [FV.age v; FV.sex v; FV.cp v; FV.trestbps v; FV.chol v; FV.fbs v;
                FV.restecg v; FV.thalach v; FV.exang v]) as [front [-> Hf]].
  { repeat (apply Forall_cons; [assumption|]). apply Forall_nil. }
  edestruct (floats_of_ints_total [FV.slope v; FV.ca v; FV.thal v])
    as [back [-> Hb]].
  { repeat (apply Forall_cons; [assumption|]). apply Forall_nil. }
  simpl. eexists. split; [reflexivity|].
  rewrite length_app. simpl. simpl in Hf, Hb. rewrite Hf, Hb. reflexivity.
Qed.

Lemma untouched_vector_small (a : Answers) (v : FV.t) :
  valid_answers a -> features a no_overrides = Ok v -> small_columns v.
Proof.
  intros Ha E.
  destruct (features_total a no_overrides Ha)
    as (t & c & h & p & Et & Ec & Eh & _ & E').
  rewrite E in E'. injection E' as ->.
  unfold trestbps in Et. simpl in Et.
  rewrite (estimate_trestbps_exact _ _ _ Ha (stress_score_range a)
             (weight_score_range a)) in Et.
  injection Et as <-.
  unfold chol in Ec. simpl in Ec.
  rewrite (estimate_chol_exact _ _ _ Ha (smoke_score_range a)
             (diet_score_range a)) in Ec.
  injection Ec as <-.
  unfold thalach in Eh. simpl in Eh.
  destruct (estimate_thalach_ok (age a) (exercise_score a) (stress_score a)
              (exercise_score_range a)) as [b [_ Eb]].
  rewrite Eb in Eh. injection Eh as <-.
  pose proof (stress_score_range a) as Hs.
  pose proof (weight_score_range a) as Hw.
  unfold valid_answers in Ha.
  assert (Hq1 : 0 <= (age a - 18) / 5 <= 17).
  { split; [apply Z.div_pos; lia | apply Z.div_le_upper_bound; lia]. }
  assert (Hq2 : 0 <= 4 * (age a - 18) / 5 <= 66).
  { split; [apply Z.div_pos; lia | apply Z.div_le_upper_bound; lia]. }
  unfold small_columns, vector; simpl.
  unfold sex, cp, fbs, restecg, exang, slope, ca, thal; simpl.
  unfold derive_cp, derive_fbs, derive_restecg, derive_exang, derive_slope,
    derive_thal, trestbps_exact, chol_exact, smoke_penalty_of, diet_adjust_of.
  repeat (apply Forall_cons; [|]); [.. | apply Forall_nil].
  all: repeat match goal with
              | |- context [if ?b then _ else _] => destruct b
              end.
  all: lia.
Qed.

(** C7. Two submissions with the same age and the same categorical answers,
    the expander untouched in both, yield the same vector: a vector is produced
    for each, the two are equal, and the row built from it has thirteen
    entries. *)
Theorem features_deterministic (a1 a2 : Answers) :
  valid_answers a1 ->
  age a1 = age a2 -> gender a1 = gender a2 -> smoking a1 = smoking a2 ->
  exercise a1 = exercise a2 -> diet a1 = diet a2 -> stress a1 = stress a2 ->
  family_history a1 = family_history a2 -> weight a1 = weight a2 ->
  sleep a1 = sleep a2 ->
  exists v row,
    features a1 no_overrides = Ok v /\
    features a2 no_overrides = Ok v /\
    X v = Ok [row] /\ List.length row = 13%nat.
Proof.
  intros Ha Hage Hg Hsm He Hd Hst Hf Hw Hsl.
  assert (Heq : a1 = a2).
  { destruct a1, a2; simpl in *; congruence. }
  subst a2.
  destruct (features_total a1 no_overrides Ha)
    as (t & c & h & p & _ & _ & _ & _ & E).
  destruct (X_total _ (untouched_vector_small a1 _ Ha E)) as [row [Ex Hlen]].
  eexists. exists row. repeat split; eassumption.
Qed.

Lemma features_deterministic_witness :
  valid_answers example_answers /\
  exists v row,
    features example_answers no_overrides = Ok v /\
    features example_answers no_overrides = Ok v /\
    X v = Ok [row] /\ List.length row = 13%nat.
Proof.
  assert (Ha : valid_answers example_answers) by (unfold valid_answers; simpl; lia).
  split; [exact Ha|].
  exact (features_deterministic example_answers example_answers Ha
           eq_refl eq_refl eq_refl eq_refl eq_refl eq_refl eq_refl eq_refl eq_refl).
Defined.

(** ** The risk label *)

Lemma digits2_pos_size (m : positive) : digits2_pos m = Pos.size m.
Proof. induction m; simpl; congruence. Qed.

(** A mantissa of [d] binary digits lies in [[2^(d-1), 2^d)]. *)
Lemma digits2_pos_bounds (m : positive) :
  2 ^ Z.pos (digits2_pos m) <= 2 * Z.pos m /\ Z.pos m < 2 ^ Z.pos (digits2_pos m).
Proof.
  rewrite digits2_pos_size.
  pose proof (Pos.size_gt m) as Hgt. pose proof (Pos.size_le m) as Hle.
  rewrite <- Pos2Z.inj_pow. split; lia.
Qed.

Lemma Prim2SF_half : Prim2SF 0.5%float = S754_finite false 4503599627370496 (-53).
Proof. vm_compute. reflexivity. Qed.

Lemma pos_pow2_to_Z (k : Z) : 0 < k -> Z.pos (2 ^ Z.to_pos k) = 2 ^ k.
Proof. intros Hk. rewrite Pos2Z.inj_pow, Z2Pos.id by lia. reflexivity. Qed.

Lemma Some_eq_inv {A : Type} (x y : A) : Some x = Some y -> x = y.
Proof. congruence. Qed.

Lemma ltb_half_exact (p : float) (q : Q) :
  Q_of_float p = Some q ->
  ((0.5 <? p)%float = true <-> Qlt (1 # 2) q).
Proof.
  intros Hq. rewrite ltb_spec, Prim2SF_half.
  pose proof (Prim2SF_valid p) as Hv.
  unfold Q_of_float in Hq.
  destruct (Prim2SF p) as [s | s | | s m e]; try discriminate.
  - apply Some_eq_inv in Hq. subst q. unfold SFltb, SFcompare, Qlt. simpl.
    split; [discriminate | intros H; exfalso; lia].
  - apply Some_eq_inv in Hq. subst q.
    unfold valid_binary, bounded, canonical_mantissa, fexp, SpecFloat.emin in Hv.
    apply andb_prop in Hv. destruct Hv as [Hc _]. apply Z.eqb_eq in Hc.
    change prec with 53 in Hc. change emax with 1024 in Hc.
    destruct (digits2_pos_bounds m) as [Hlo Hhi].
    set (d := Z.pos (digits2_pos m)) in *.
    assert (Hd : 0 < d) by (subst d; lia).
    unfold SFltb, SFcompare.
    destruct s.
    + (* negative *)
      split; [discriminate|]. intros H. exfalso.
      destruct (0 <=? e) eqn:He.
      * apply Z.leb_le in He.
        cbv [Qlt Qopp inject_Z Qnum Qden] in H.
        pose proof (Z.pow_pos_nonneg 2 e ltac:(lia) He).
        assert (0 < Z.pos m * 2 ^ e) by (apply Z.mul_pos_pos; lia). lia.
      * cbv [Qlt Qopp inject_Z Qnum Qden] in H. lia.
    + destruct (Z.compare_spec (-53) e) as [He | He | He].
      * subst e. cbn [Z.leb Z.compare Z.opp Z.to_pos].
        cbv [Qlt Qopp inject_Z Qnum Qden].
        change (Pos.compare_cont Eq 4503599627370496 m)
          with (4503599627370496 ?= Z.pos m).
        change (Z.pos (2 ^ 53)) with 9007199254740992.
        destruct (Z.compare_spec 4503599627370496 (Z.pos m)) as [Hm | Hm | Hm].
        -- split; [intros H; discriminate H | intros H; exfalso; clear - H Hm; lia].
        -- split; [intros _; clear - Hm; lia | reflexivity].
        -- split; [intros H; discriminate H | intros H; exfalso; clear - H Hm; lia].
      * split; [intros _ | reflexivity].
        assert (d = 53) by lia.
        assert (Hm : 2 ^ 52 <= Z.pos m).
        { replace d with 53 in Hlo by lia.
          change (2 ^ 53) with (2 * 2 ^ 52) in Hlo. lia. }
        destruct (0 <=? e) eqn:He'.
        -- apply Z.leb_le in He'. cbv [Qlt Qopp inject_Z Qnum Qden].
           pose proof (Z.pow_pos_nonneg 2 e ltac:(lia) He').
           assert (0 < Z.pos m * 2 ^ e) by (apply Z.mul_pos_pos; lia). lia.
        -- apply Z.leb_gt in He'. cbv [Qlt Qopp inject_Z Qnum Qden].
           rewrite pos_pow2_to_Z by lia.
           assert (2 ^ (- e) <= 2 ^ 52) by (apply Z.pow_le_mono_r; lia).
           lia.
      * split; [discriminate|]. intros H. exfalso.
        assert (He' : (0 <=? e) = false) by (apply Z.leb_gt; lia).
        rewrite He' in H. cbv [Qlt Qopp inject_Z Qnum Qden] in H.
        rewrite pos_pow2_to_Z in H by lia.
        assert (d <= 53) by lia.
        assert (2 ^ d <= 2 ^ 53) by (apply Z.pow_le_mono_r; lia).
        assert (2 ^ 54 <= 2 ^ (- e)) by (apply Z.pow_le_mono_r; lia).
        change (2 ^ 54) with (2 * 2 ^ 53) in *. lia.
Qed.

(** C5. For a predicted probability that is a finite float, standing for the
    rational [q] (in particular for every probability between 0 and 1), the
    label is the high-risk one exactly when [q] is above one half and the
    low-risk one exactly when it is not; at one half exactly the label is the
    low-risk one. *)
Theorem risk_label_threshold (pred_prob : float) (q : Q) :
  Q_of_float pred_prob = Some q ->
  (pred_label pred_prob = "High Risk 💔"%string <-> Qlt (1 # 2) q) /\
  (pred_label pred_prob = "Low Risk ❤️"%string <-> ~ Qlt (1 # 2) q) /\
  pred_label 0.5 = "Low Risk ❤️"%string.
Proof.
  intros Hq. pose proof (ltb_half_exact pred_prob q Hq) as Hlt.
  unfold pred_label at 1 2.
  destruct (0.5 <? pred_prob)%float.
  - split; [|split].
    + split; [intros _; apply Hlt; reflexivity | reflexivity].
    + split; [discriminate |].
      intros Hn. exfalso. apply Hn, Hlt. reflexivity.
    + vm_compute. reflexivity.
  - assert (Hn : ~ Qlt (1 # 2) q).
    { intros H. apply Hlt in H. discriminate H. }
    split; [|split].
    + split; [discriminate | intros H; contradiction].
    + split; [intros _; exact Hn | reflexivity].
    + vm_compute. reflexivity.
Qed.

Lemma risk_label_threshold_witness :
  Q_of_float 0.5 = Some (4503599627370496 # 9007199254740992) /\
  (pred_label 0.5 = "High Risk 💔"%string
   <-> Qlt (1 # 2) (4503599627370496 # 9007199254740992)) /\
  (pred_label 0.5 = "Low Risk ❤️"%string
   <-> ~ Qlt (1 # 2) (4503599627370496 # 9007199254740992)) /\
  pred_label 0.5 = "Low Risk ❤️"%string.
Proof.
  assert (H : Q_of_float 0.5 = Some (4503599627370496 # 9007199254740992))
    by (vm_compute; reflexivity).
  split; [exact H|].
  exact (risk_label_threshold 0.5 (4503599627370496 # 9007199254740992) H).
Defined.

(** ** Loading the model *)

(** C8. When [model.pkl] is missing, or its bytes do not unpickle, the run ends
    with the exception raised by the load, whatever the answers, the clinical
    inputs and the button: no prediction is produced and nothing is tried
    instead. *)
Theorem load_failure_aborts
    (open_rb : string -> option (list Byte.byte))
    (pickle_load : list Byte.byte -> result Model)
    (a : Answers) (o : Overrides) (submitted : bool) (e : exn) :
  load_failure open_rb pickle_load e ->
  app open_rb pickle_load a o submitted = Raise e /\
  forall r, app open_rb pickle_load a o submitted <> Ok r.
Proof.
  intros H.
  assert (E : app open_rb pickle_load a o submitted = Raise e).
  { unfold app, load_model.
    destruct H as [Hnone | data e Hsome Hload].
    - rewrite Hnone. reflexivity.
    - rewrite Hsome, Hload. reflexivity. }
  split; [exact E|]. intros r Hr. rewrite E in Hr. discriminate Hr.
Qed.

Lemma load_failure_aborts_witness :
  load_failure (fun _ => None) (fun _ => Raise UnpicklingError) FileNotFoundError /\
  app (fun _ => None) (fun _ => Raise UnpicklingError)
    example_answers no_overrides true = Raise FileNotFoundError /\
  forall r,
    app (fun _ => None) (fun _ => Raise UnpicklingError)
      example_answers no_overrides true <> Ok r.
Proof.
  assert (H : load_failure (fun _ => None) (fun _ => Raise UnpicklingError)
                FileNotFoundError) by (apply artifact_missing; reflexivity).
  split; [exact H|].
  exact (load_failure_aborts _ _ example_answers no_overrides true _ H).
Defined.

(** ** The training script *)

(** C6. A run of the training script that completes has made exactly these
    calls, in this order: read the data set, split it with test fraction 0.2
    and seed 42, build a forest of 200 trees with seed 42, fit it on the
    training part of that split, write the fitted classifier to [model.pkl],
    print the confirmation.  Conversely, whenever the library calls with these
    arguments succeed, the run completes in that way. *)
Theorem train_model_calls (L : Train.Library) (log : list Train.Call) :
  Train.train_model [] = (Ok tt, log) <->
  exists df X y X_train X_test y_train y_test model,
    Train.read_csv "heart (1).csv" = Ok df /\
    Train.drop df "target" = Ok X /\
    Train.column df "target" = Ok y /\
    Train.train_test_split X y 0.2 42 = Ok (X_train, X_test, y_train, y_test) /\
    Train.fit (Train.RandomForestClassifier 200 42) X_train y_train = Ok model /\
    log = [Train.Call_read_csv "heart (1).csv";
           Train.Call_train_test_split 0.2 42;
           Train.Call_RandomForestClassifier 200 42;
           Train.Call_fit;
           Train.Call_dump "model.pkl" (Train.dumps model);
           Train.Call_print "✅ Model trained and saved successfully!"].
Proof.
  split.
  - intros H.
    unfold Train.train_model, Train.do_read_csv, Train.do_train_test_split,
      Train.do_RandomForestClassifier, Train.do_fit, Train.do_dump,
      Train.mbind, Train.emit, Train.lift, Train.ret in H.
    cbn [List.app] in H.
    destruct (Train.read_csv "heart (1).csv") as [df|] eqn:Er; [|discriminate H].
    destruct (Train.drop df "target") as [X|] eqn:Ed; [|discriminate H].
    destruct (Train.column df "target") as [y|] eqn:Ec; [|discriminate H].
    destruct (Train.train_test_split X y 0.2 42) as [[[[X_train X_test] y_train] y_test]|]
      eqn:Es; [|discriminate H].
    cbn [List.app] in H.
    destruct (Train.fit (Train.RandomForestClassifier 200 42) X_train y_train)
      as [model|] eqn:Ef; [|discriminate H].
    cbn [List.app] in H.
    exists df, X, y, X_train, X_test, y_train, y_test, model.
    repeat (split; [first [assumption | reflexivity]|]).
    symmetry. exact (f_equal snd H).
  - intros (df & X & y & X_train & X_test & y_train & y_test & model
            & Er & Ed & Ec & Es & Ef & ->).
    unfold Train.train_model, Train.do_read_csv, Train.do_train_test_split,
      Train.do_RandomForestClassifier, Train.do_fit, Train.do_dump,
      Train.mbind, Train.emit, Train.lift, Train.ret.
    cbn [List.app]. rewrite Er, Ed, Ec, Es. cbn [List.app]. rewrite Ef. reflexivity.
Qed.

Lemma train_model_calls_witness :
  @Train.train_model toy_library []
  = (Ok tt,
     [Train.Call_read_csv "heart (1).csv";
      Train.Call_train_test_split 0.2 42;
      Train.Call_RandomForestClassifier 200 42;
      Train.Call_fit;
      Train.Call_dump "model.pkl" [Byte.x80; Byte.x04];
      Train.Call_print "✅ Model trained and saved successfully!"]) /\
  exists df X y X_train X_test y_train y_test model,
    @Train.read_csv toy_library "heart (1).csv" = Ok df /\
    @Train.drop toy_library df "target" = Ok X /\
    @Train.column toy_library df "target" = Ok y /\
    @Train.train_test_split toy_library X y 0.2 42
    = Ok (X_train, X_test, y_train, y_test) /\
    @Train.fit toy_library (@Train.RandomForestClassifier toy_library 200 42)
      X_train y_train = Ok model /\
    [Train.Call_read_csv "heart (1).csv";
     Train.Call_train_test_split 0.2 42;
     Train.Call_RandomForestClassifier 200 42;
     Train.Call_fit;
     Train.Call_dump "model.pkl" [Byte.x80; Byte.x04];
     Train.Call_print "✅ Model trained and saved successfully!"]
    = [Train.Call_read_csv "heart (1).csv";
       Train.Call_train_test_split 0.2 42;
       Train.Call_RandomForestClassifier 200 42;
       Train.Call_fit;
       Train.Call_dump "model.pkl" (@Train.dumps toy_library model);
       Train.Call_print "✅ Model trained and saved successfully!"].
Proof.
  assert (H : @Train.train_model toy_library []
              = (Ok tt,
                 [Train.Call_read_csv "heart (1).csv";
                  Train.Call_train_test_split 0.2 42;
                  Train.Call_RandomForestClassifier 200 42;
                  Train.Call_fit;
                  Train.Call_dump "model.pkl" [Byte.x80; Byte.x04];
                  Train.Call_print "✅ Model trained and saved successfully!"]))
    by reflexivity.
  split; [exact H|].
  exact (proj1 (train_model_calls toy_library _) H).
Defined.

(** * Further properties of the feature derivation *)

(** ** The estimates *)

Lemma trestbps_exact_range (age ss ws : Z) :
  18 <= age <= 100 -> 0 <= ss <= 2 -> 0 <= ws <= 3 ->
  110 <= trestbps_exact age ss ws <= 163.
Proof.
  intros Ha Hs Hw. unfold trestbps_exact.
  assert (0 <= (age - 18) / 5 <= 16).
  { split; [apply Z.div_pos; lia|].
    apply Z.lt_succ_r. apply Z.div_lt_upper_bound; lia. }
  lia.
Qed.

Lemma chol_exact_range (age ss ds : Z) :
  18 <= age <= 100 -> 0 <= ss <= 2 -> 0 <= ds <= 2 ->
  150 <= chol_exact age ss ds <= 280.
Proof.
  intros Ha Hs Hd. unfold chol_exact.
  assert (Cs : ss = 0 \/ ss = 1 \/ ss = 2) by lia.
  assert (Cd : ds = 0 \/ ds = 1 \/ ds = 2) by lia.
  assert (Hq : 0 <= 4 * (age - 18) / 5 <= 65).
  { split; [apply Z.div_pos; lia|].
    apply Z.lt_succ_r. apply Z.div_lt_upper_bound; lia. }
  destruct Cs as [-> | [-> | ->]]; destruct Cd as [-> | [-> | ->]];
    cbv [smoke_penalty_of diet_adjust_of Z.eqb Pos.eqb]; lia.
Qed.

(** X1. On form inputs the float computation of the resting blood pressure
    returns the formula [110 + (age - 18)/5 + 8 stress + 7 weight] of exact
    arithmetic, rounded down, and the value lies between 110 and 163. *)
Theorem estimate_trestbps_value (age ss ws : Z) :
  18 <= age <= 100 -> 0 <= ss <= 2 -> 0 <= ws <= 3 ->
  exists v,
    estimate_trestbps age ss ws = Ok v /\
    v = 110 + (age - 18) / 5 + ss * 8 + ws * 7 /\
    110 <= v <= 163.
Proof.
  intros Ha Hs Hw.
  exists (trestbps_exact age ss ws).
  split; [apply estimate_trestbps_exact; assumption|].
  split; [reflexivity|].
  apply trestbps_exact_range; assumption.
Qed.

Lemma estimate_trestbps_value_witness :
  (18 <= 100 <= 100 /\ 0 <= 2 <= 2 /\ 0 <= 3 <= 3) /\
  exists v,
    estimate_trestbps 100 2 3 = Ok v /\
    v = 110 + (100 - 18) / 5 + 2 * 8 + 3 * 7 /\
    110 <= v <= 163.
Proof.
  split; [lia | apply (estimate_trestbps_value 100 2 3); lia].
Defined.

(** X2. On form inputs the float computation of the cholesterol returns
    [160 + 4 (age - 18)/5] rounded down, plus the smoking penalty 0, 15 or 30
    and the diet adjustment 25, 10 or -10; the value lies between 150 and
    280. *)
Theorem estimate_chol_value (age ss ds : Z) :
  18 <= age <= 100 -> 0 <= ss <= 2 -> 0 <= ds <= 2 ->
  exists v penalty adjust,
    estimate_chol age ss ds = Ok v /\
    Py.getitem [0; 15; 30] ss = Ok penalty /\
    Py.getitem [25; 10; -10] ds = Ok adjust /\
    v = 160 + 4 * (age - 18) / 5 + penalty + adjust /\
    150 <= v <= 280.
Proof.
  intros Ha Hs Hd.
  exists (chol_exact age ss ds), (smoke_penalty_of ss), (diet_adjust_of ds).
  split; [apply estimate_chol_exact; assumption|].
  assert (Cs : ss = 0 \/ ss = 1 \/ ss = 2) by lia.
  assert (Cd : ds = 0 \/ ds = 1 \/ ds = 2) by lia.
  split; [destruct Cs as [-> | [-> | ->]]; reflexivity|].
  split; [destruct Cd as [-> | [-> | ->]]; reflexivity|].
  split; [reflexivity|].
  apply chol_exact_range; assumption.
Qed.

Lemma estimate_chol_value_witness :
  (18 <= 45 <= 100 /\ 0 <= 2 <= 2 /\ 0 <= 0 <= 2) /\
  exists v penalty adjust,
    estimate_chol 45 2 0 = Ok v /\
    Py.getitem [0; 15; 30] 2 = Ok penalty /\
    Py.getitem [25; 10; -10] 0 = Ok adjust /\
    v = 160 + 4 * (45 - 18) / 5 + penalty + adjust /\
    150 <= v <= 280.
Proof.
  split; [lia | apply (estimate_chol_value 45 2 0); lia].
Defined.

(** X3. The blood pressure estimate never goes down when the age, the stress
    rank or the weight rank goes up. *)
Theorem estimate_trestbps_monotone (age age' ss ss' ws ws' : Z) :
  18 <= age <= age' -> age' <= 100 ->
  0 <= ss <= ss' -> ss' <= 2 ->
  0 <= ws <= ws' -> ws' <= 3 ->
  exists v v',
    estimate_trestbps age ss ws = Ok v /\
    estimate_trestbps age' ss' ws' = Ok v' /\
    v <= v'.
Proof.
  intros Ha Ha' Hs Hs' Hw Hw'.
  exists (trestbps_exact age ss ws), (trestbps_exact age' ss' ws').
  split; [apply estimate_trestbps_exact; lia|].
  split; [apply estimate_trestbps_exact; lia|].
  unfold trestbps_exact.
  assert ((age - 18) / 5 <= (age' - 18) / 5) by (apply Z.div_le_mono; lia).
  lia.
Qed.

Lemma estimate_trestbps_monotone_witness :
  (18 <= 30 <= 70 /\ 70 <= 100 /\ 0 <= 0 <= 2 /\ 2 <= 2 /\
   0 <= 1 <= 3 /\ 3 <= 3) /\
  exists v v',
    estimate_trestbps 30 0 1 = Ok v /\
    estimate_trestbps 70 2 3 = Ok v' /\
    v <= v'.
Proof.
  split; [lia | apply (estimate_trestbps_monotone 30 70 0 2 1 3); lia].
Defined.

(** X4. The cholesterol estimate never goes down when the age or the smoking
    rank goes up or when the diet rank goes down. *)
Theorem estimate_chol_monotone (age age' ss ss' ds ds' : Z) :
  18 <= age <= age' -> age' <= 100 ->
  0 <= ss <= ss' -> ss' <= 2 ->
  0 <= ds' <= ds -> ds <= 2 ->
  exists v v',
    estimate_chol age ss ds = Ok v /\
    estimate_chol age' ss' ds' = Ok v' /\
    v <= v'.
Proof.
  intros Ha Ha' Hs Hs' Hd Hd'.
  exists (chol_exact age ss ds), (chol_exact age' ss' ds').
  split; [apply estimate_chol_exact; lia|].
  split; [apply estimate_chol_exact; lia|].
  unfold chol_exact.
  assert (4 * (age - 18) / 5 <= 4 * (age' - 18) / 5)
    by (apply Z.div_le_mono; lia).
  assert (smoke_penalty_of ss <= smoke_penalty_of ss').
  { unfold smoke_penalty_of.
    destruct (ss =? 0) eqn:E1, (ss =? 1) eqn:E2,
             (ss' =? 0) eqn:E3, (ss' =? 1) eqn:E4; lia. }
  assert (diet_adjust_of ds <= diet_adjust_of ds').
  { unfold diet_adjust_of.
    destruct (ds =? 0) eqn:E1, (ds =? 1) eqn:E2,
             (ds' =? 0) eqn:E3, (ds' =? 1) eqn:E4; lia. }
  lia.
Qed.

Lemma estimate_chol_monotone_witness :
  (18 <= 30 <= 70 /\ 70 <= 100 /\ 0 <= 0 <= 2 /\ 2 <= 2 /\
   0 <= 0 <= 2 /\ 2 <= 2) /\
  exists v v',
    estimate_chol 30 0 2 = Ok v /\
    estimate_chol 70 2 0 = Ok v' /\
    v <= v'.
Proof.
  split; [lia | apply (estimate_chol_monotone 30 70 0 2 2 0); lia].
Defined.

(** X5. On form inputs the maximum heart rate estimate is
    [200 - age + bonus - 5 stress] with bonus -10, -5, 0 or 5, raised to 90
    when it falls below; the upper cap of 200 is never reached, the estimate
    being at most 187. *)
Theorem estimate_thalach_value (age es ss : Z) :
  18 <= age <= 100 -> 0 <= es <= 3 -> 0 <= ss <= 2 ->
  exists v,
    estimate_thalach age es ss = Ok v /\
    v = Z.max 90 (200 - age + (5 * es - 10) - ss * 5) /\
    v <= 187.
Proof.
  intros Ha He Hs.
  assert (C : es = 0 \/ es = 1 \/ es = 2 \/ es = 3) by lia.
  destruct C as [-> | [-> | [-> | ->]]];
    (eexists; split; [reflexivity | split; lia]).
Qed.

Lemma estimate_thalach_value_witness :
  (18 <= 18 <= 100 /\ 0 <= 3 <= 3 /\ 0 <= 0 <= 2) /\
  exists v,
    estimate_thalach 18 3 0 = Ok v /\
    v = Z.max 90 (200 - 18 + (5 * 3 - 10) - 0 * 5) /\
    v <= 187.
Proof.
  split; [lia | apply (estimate_thalach_value 18 3 0); lia].
Defined.

(** X6. The maximum heart rate estimate never goes up with age or stress and
    never goes down with exercise. *)
Theorem estimate_thalach_monotone (age age' es es' ss ss' : Z) :
  age <= age' -> 0 <= es' <= es -> es <= 3 -> ss <= ss' ->
  exists v v',
    estimate_thalach age es ss = Ok v /\
    estimate_thalach age' es' ss' = Ok v' /\
    v' <= v.
Proof.
  intros Ha He He' Hs.
  assert (C : es = 0 \/ es = 1 \/ es = 2 \/ es = 3) by lia.
  assert (C' : es' = 0 \/ es' = 1 \/ es' = 2 \/ es' = 3) by lia.
  destruct C as [-> | [-> | [-> | ->]]];
    destruct C' as [-> | [-> | [-> | ->]]]; try lia;
    (eexists; eexists; split; [reflexivity | split; [reflexivity | lia]]).
Qed.

Lemma estimate_thalach_monotone_witness :
  (40 <= 65 /\ 0 <= 0 <= 3 /\ 3 <= 3 /\ 0 <= 2) /\
  exists v v',
    estimate_thalach 40 3 0 = Ok v /\
    estimate_thalach 65 0 2 = Ok v' /\
    v' <= v.
Proof.
  split; [lia | apply (estimate_thalach_monotone 40 65 3 0 0 2); lia].
Defined.

(** X7. An exercise score outside the four list positions makes the maximum
    heart rate estimate raise [IndexError]: above 3, or below -4 (Python counts
    negative positions from the end). *)
Theorem estimate_thalach_index_error (age es ss : Z) :
  3 < es \/ es < -4 ->
  estimate_thalach age es ss = Raise IndexError.
Proof.
  intros H. unfold estimate_thalach, Py.getitem.
  cbn [List.length Z.of_nat Pos.of_succ_nat Pos.succ].
  destruct (es <? 0) eqn:Eneg.
  - apply Z.ltb_lt in Eneg.
    assert (E : (0 <=? es + 4) && (es + 4 <? 4) = false).
    { apply andb_false_iff. left. apply Z.leb_gt. lia. }
    rewrite E. reflexivity.
  - apply Z.ltb_ge in Eneg.
    assert (E : (0 <=? es) && (es <? 4) = false).
    { apply andb_false_iff. right. apply Z.ltb_ge. lia. }
    rewrite E. reflexivity.
Qed.

Lemma estimate_thalach_index_error_witness :
  (3 < 4 \/ 4 < -4) /\ estimate_thalach 45 4 1 = Raise IndexError.
Proof.
  split; [lia | apply (estimate_thalach_index_error 45 4 1); lia].
Defined.

Lemma oldpeak_table :
  forallb (fun s => forallb (fun w => oldpeak_check s w) (Zrange 0 4))
    (Zrange 0 3) = true.
Proof. vm_compute. reflexivity. Qed.

Lemma estimate_oldpeak_checked (ss ws : Z) :
  0 <= ss <= 2 -> 0 <= ws <= 3 ->
  exists v,
    estimate_oldpeak ss ws = Ok v /\
    (0.2 <=? v)%float = true /\ (v <=? 2)%float = true /\
    (0 <? v)%float = true /\ (Py.round1 v =? v)%float = true.
Proof.
  intros Hs Hw.
  pose proof (Zrange_forallb 0 3 _ oldpeak_table ss ltac:(lia)) as T.
  cbv beta in T.
  pose proof (Zrange_forallb 0 4 _ T ws ltac:(lia)) as T'.
  cbv beta in T'.
  apply is_ok_with_inv in T'. destruct T' as [v [E Hv]].
  apply andb_prop in Hv. destruct Hv as [Hv H4].
  apply andb_prop in Hv. destruct Hv as [Hv H3].
  apply andb_prop in Hv. destruct Hv as [H1 H2].
  exists v. auto.
Qed.

(** X8. On form inputs the ST depression estimate is a float between 0.2 and
    2.0 that is already rounded to one decimal, and the underweight and normal
    weight ranks give the same estimate. *)
Theorem estimate_oldpeak_value (ss ws : Z) :
  0 <= ss <= 2 -> 0 <= ws <= 3 ->
  (exists v,
     estimate_oldpeak ss ws = Ok v /\
     (0.2 <=? v)%float = true /\ (v <=? 2)%float = true /\
     (Py.round1 v =? v)%float = true) /\
  estimate_oldpeak ss 0 = estimate_oldpeak ss 1.
Proof.
  intros Hs Hw. split.
  - destruct (estimate_oldpeak_checked ss ws Hs Hw) as (v & E & H1 & H2 & _ & H4).
    exists v. auto.
  - reflexivity.
Qed.

Lemma estimate_oldpeak_value_witness :
  (0 <= 1 <= 2 /\ 0 <= 3 <= 3) /\
  (exists v,
     estimate_oldpeak 1 3 = Ok v /\
     (0.2 <=? v)%float = true /\ (v <=? 2)%float = true /\
     (Py.round1 v =? v)%float = true) /\
  estimate_oldpeak 1 0 = estimate_oldpeak 1 1.
Proof.
  split; [lia | apply (estimate_oldpeak_value 1 3); lia].
Defined.

(** ** Which answer reaches which column *)
















(** ** The ranges of the columns *)

Lemma trestbps_range (a : Answers) (o : Overrides) (t : Z) :
  valid_answers a -> in_range 0 300 (trestbps_opt o) ->
  trestbps a o = Ok t -> 1 <= t <= 300.
Proof.
  intros Ha Ho E. unfold trestbps in E.
  pose proof (trestbps_exact_range (age a) (stress_score a) (weight_score a)
                Ha (stress_score_range a) (weight_score_range a)) as Hv.
  rewrite (estimate_trestbps_exact (age a) (stress_score a) (weight_score a)
             Ha (stress_score_range a) (weight_score_range a)) in E.
  destruct (trestbps_opt o) as [n|]; simpl in Ho.
  - destruct (n >? 0) eqn:Hn; apply Ok_inj in E; subst t; [|lia].
    apply Z.gtb_lt in Hn. lia.
  - apply Ok_inj in E. lia.
Qed.

Lemma chol_range (a : Answers) (o : Overrides) (c : Z) :
  valid_answers a -> in_range 0 800 (chol_opt o) ->
  chol a o = Ok c -> 1 <= c <= 800.
Proof.
  intros Ha Ho E. unfold chol in E.
  pose proof (chol_exact_range (age a) (smoke_score a) (diet_score a)
                Ha (smoke_score_range a) (diet_score_range a)) as Hv.
  rewrite (estimate_chol_exact (age a) (smoke_score a) (diet_score a)
             Ha (smoke_score_range a) (diet_score_range a)) in E.
  destruct (chol_opt o) as [n|]; simpl in Ho.
  - destruct (n >? 0) eqn:Hn; apply Ok_inj in E; subst c; [|lia].
    apply Z.gtb_lt in Hn. lia.
  - apply Ok_inj in E. lia.
Qed.

Lemma thalach_range (a : Answers) (o : Overrides) (h : Z) :
  valid_answers a -> in_range 0 230 (thalach_opt o) ->
  thalach a o = Ok h -> 1 <= h <= 230.
Proof.
  intros Ha Ho E. unfold thalach in E.
  destruct (estimate_thalach_ok (age a) (exercise_score a) (stress_score a)
              (exercise_score_range a)) as (bonus & _ & Ev).
  rewrite Ev in E.
  destruct (thalach_opt o) as [n|]; simpl in Ho.
  - destruct (n >? 0) eqn:Hn; apply Ok_inj in E; subst h; [|lia].
    apply Z.gtb_lt in Hn. lia.
  - apply Ok_inj in E. lia.
Qed.

Lemma Prim2SF_two : Prim2SF 2%float = S754_finite false 4503599627370496 (-51).
Proof. vm_compute. reflexivity. Qed.

Lemma Prim2SF_ten : Prim2SF 10%float = S754_finite false 5629499534213120 (-49).
Proof. vm_compute. reflexivity. Qed.

(** A float that is at most 2 is at most 10. *)
Lemma float_le_two_le_ten (x : float) :
  (x <=? 2)%float = true -> (x <=? 10)%float = true.
Proof.
  rewrite !leb_spec, Prim2SF_two, Prim2SF_ten.
  unfold SFleb, SFcompare.
  destruct (Prim2SF x) as [s | s | | s m e]; try (intros H; exact H).
  destruct s; [intros _; reflexivity|].
  destruct (Z.compare_spec e (-51)) as [He | He | He].
  - subst e. intros _. reflexivity.
  - intros _.
    destruct (Z.compare_spec e (-49)) as [He' | He' | He'];
      first [reflexivity | exfalso; lia].
  - intros H. discriminate H.
Qed.

Lemma oldpeak_range (a : Answers) (o : Overrides) (p : float) :
  match oldpeak_opt o with
  | Some x => (0 <=? x)%float = true /\ (x <=? 10)%float = true
  | None => True
  end ->
  oldpeak a o = Ok p ->
  (0 <? p)%float = true /\ (p <=? 10)%float = true.
Proof.
  intros Ho E. unfold oldpeak in E.
  destruct (estimate_oldpeak_checked (stress_score a) (weight_score a)
              (stress_score_range a) (weight_score_range a))
    as (v & Ev & _ & H2 & H0 & _).
  rewrite Ev in E.
  destruct (oldpeak_opt o) as [x|].
  - destruct Ho as [_ Hhi].
    destruct (0 <? x)%float eqn:Hx; apply Ok_inj in E; subst p.
    + split; [exact Hx | exact Hhi].
    + split; [exact H0 | apply float_le_two_le_ten; exact H2].
  - apply Ok_inj in E. subst p.
    split; [exact H0 | apply float_le_two_le_ten; exact H2].
Qed.

Lemma vector_columns_in_schema (a : Answers) (o : Overrides) (n : Z)
    (t c h : Z) (p : float) :
  valid_answers a -> valid_overrides o -> ca_opt o = Some n ->
  trestbps a o = Ok t -> chol a o = Ok c ->
  thalach a o = Ok h -> oldpeak a o = Ok p ->
  in_schema (vector a o t c h p).
Proof.
  intros Ha (Hot & Hoc & Hoh & Hoca & Hop) Hca Et Ec Eh Ep.
  pose proof (trestbps_range a o t Ha Hot Et) as Rt.
  pose proof (chol_range a o c Ha Hoc Ec) as Rc.
  pose proof (thalach_range a o h Ha Hoh Eh) as Rh.
  pose proof (oldpeak_range a o p Hop Ep) as Rp.
  pose proof (stress_score_range a) as Rs.
  pose proof (exercise_score_range a) as Re.
  unfold valid_answers in Ha.
  unfold in_schema, vector; simpl.
  repeat split; try lia; try tauto.
  - unfold sex. destruct (gender a); lia.
  - unfold sex. destruct (gender a); lia.
  - unfold cp, derive_cp.
    repeat match goal with |- context [if ?b then _ else _] => destruct b end; lia.
  - unfold cp, derive_cp.
    repeat match goal with |- context [if ?b then _ else _] => destruct b end; lia.
  - unfold fbs, derive_fbs. destruct (fbs_opt o) as [[| |]|];
    repeat match goal with |- context [if ?b then _ else _] => destruct b end; lia.
  - unfold fbs, derive_fbs. destruct (fbs_opt o) as [[| |]|];
    repeat match goal with |- context [if ?b then _ else _] => destruct b end; lia.
  - unfold restecg, derive_restecg. destruct (restecg_opt o) as [[| | |]|]; lia.
  - unfold restecg, derive_restecg. destruct (restecg_opt o) as [[| | |]|]; lia.
  - unfold exang, derive_exang. destruct (exang_opt o) as [[| |]|];
    repeat match goal with |- context [if ?b then _ else _] => destruct b end; lia.
  - unfold exang, derive_exang. destruct (exang_opt o) as [[| |]|];
    repeat match goal with |- context [if ?b then _ else _] => destruct b end; lia.
  - unfold slope, derive_slope. destruct (slope_opt o) as [[| | |]|];
    repeat match goal with |- context [if ?b then _ else _] => destruct b end; lia.
  - unfold slope, derive_slope. destruct (slope_opt o) as [[| | |]|];
    repeat match goal with |- context [if ?b then _ else _] => destruct b end; lia.
  - unfold ca. rewrite Hca. rewrite Hca in Hoca. simpl in Hoca. lia.
  - unfold ca. rewrite Hca. rewrite Hca in Hoca. simpl in Hoca. lia.
  - unfold thal, derive_thal. destruct (thal_opt o) as [[| | |]|];
    repeat match goal with |- context [if ?b then _ else _] => destruct b end; lia.
  - unfold thal, derive_thal. destruct (thal_opt o) as [[| | |]|];
    repeat match goal with |- context [if ?b then _ else _] => destruct b end; lia.
Qed.

(** X10. For any answers and clinical inputs within the bounds of the widgets,
    a vector is produced and each column is in its range: age 18..100, sex
    0..1, chest pain 0..2, blood pressure 1..300, cholesterol 1..800, blood
    sugar 0..1, resting ECG 0..2, heart rate 1..230, angina 0..1, ST depression
    above 0 and at most 10, slope 0..2, vessels 0..4, thalassemia 1..3. *)
Theorem vector_in_schema (a : Answers) (o : Overrides) (n : Z) :
  valid_answers a -> valid_overrides o -> ca_opt o = Some n ->
  exists v, features a o = Ok v /\ in_schema v.
Proof.
  intros Ha Ho Hca.
  destruct (features_total a o Ha) as (t & c & h & p & Et & Ec & Eh & Ep & E).
  exists (vector a o t c h p). split; [exact E|].
  exact (vector_columns_in_schema a o n t c h p Ha Ho Hca Et Ec Eh Ep).
Qed.

Lemma full_overrides_valid : valid_overrides full_overrides.
Proof.
  unfold valid_overrides, full_overrides, in_range; simpl.
  repeat split; try lia; vm_compute; reflexivity.
Defined.

Lemma example_answers_valid : valid_answers example_answers.
Proof. unfold valid_answers; simpl; lia. Defined.

Lemma vector_in_schema_witness :
  (valid_answers example_answers /\ valid_overrides full_overrides /\
   ca_opt full_overrides = Some 2) /\
  exists v, features example_answers full_overrides = Ok v /\ in_schema v.
Proof.
  split.
  - split; [exact example_answers_valid|].
    split; [exact full_overrides_valid | reflexivity].
  - exact (vector_in_schema example_answers full_overrides 2
             example_answers_valid full_overrides_valid eq_refl).
Defined.

(** ** The row handed to the classifier, in general *)

Lemma in_schema_small (v : FV.t) : in_schema v -> small_columns v.
Proof.
  unfold in_schema, small_columns.
  intros (H1 & H2 & H3 & H4 & H5 & H6 & H7 & H8 & H9 & _ & H11 & H12 & H13).
  repeat (apply Forall_cons; [lia|]). apply Forall_nil.
Qed.

Lemma X_of_valid_form (a : Answers) (o : Overrides) (n : Z) :
  valid_answers a -> valid_overrides o -> ca_opt o = Some n ->
  exists v front back,
    features a o = Ok v /\
    floats_of_ints
      [FV.age v; FV.sex v; FV.cp v; FV.trestbps v; FV.chol v; FV.fbs v;
       FV.restecg v; FV.thalach v; FV.exang v] = Ok front /\
    floats_of_ints [FV.slope v; FV.ca v; FV.thal v] = Ok back /\
    X v = Ok [front ++ FV.oldpeak v :: back] /\
    List.length (front ++ FV.oldpeak v :: back) = 13%nat /\
    nth_error (front ++ FV.oldpeak v :: back) 9 = Some (FV.oldpeak v).
Proof.
  intros Ha Ho Hca.
  destruct (features_total a o Ha) as (t & c & h & p & Et & Ec & Eh & Ep & E).
  set (v := vector a o t c h p) in *.
  pose proof (vector_columns_in_schema a o n t c h p Ha Ho Hca Et Ec Eh Ep) as Hs.
  fold v in Hs.
  pose proof (in_schema_small v Hs) as Hsmall.
  unfold small_columns in Hsmall.
  repeat match goal with
         | H : Forall _ (_ :: _) |- _ => inversion H; subst; clear H
         end.
  edestruct (floats_of_ints_total
               [FV.age v; FV.sex v; FV.cp v; FV.trestbps v; FV.chol v; FV.fbs v;
                FV.restecg v; FV.thalach v; FV.exang v]) as [front [Ef Hf]].
  { repeat (apply Forall_cons; [assumption|]). apply Forall_nil. }
  edestruct (floats_of_ints_total [FV.slope v; FV.ca v; FV.thal v])
    as [back [Eb Hb]].
  { repeat (apply Forall_cons; [assumption|]). apply Forall_nil. }
  exists v, front, back.
  split; [exact E|]. split; [exact Ef|]. split; [exact Eb|].
  simpl in Hf, Hb.
  split; [unfold X; rewrite Ef, Eb; reflexivity|].
  split.
  - rewrite length_app. simpl. rewrite Hf, Hb. reflexivity.
  - rewrite nth_error_app2 by (rewrite Hf; apply Nat.le_refl).
    rewrite Hf. reflexivity.
Qed.

(** X11. For any answers and clinical inputs within the bounds of the widgets,
    the array built for the classifier is a single row of thirteen floats, in
    the order age, sex, chest pain, blood pressure, cholesterol, blood sugar,
    resting ECG, heart rate, angina, ST depression, slope, vessels,
    thalassemia: the twelve integer columns converted to floats, with the ST
    depression tenth. *)
Theorem X_row (a : Answers) (o : Overrides) (n : Z) :
  valid_answers a -> valid_overrides o -> ca_opt o = Some n ->
  exists v front back,
    features a o = Ok v /\
    floats_of_ints
      [FV.age v; FV.sex v; FV.cp v; FV.trestbps v; FV.chol v; FV.fbs v;
       FV.restecg v; FV.thalach v; FV.exang v] = Ok front /\
    floats_of_ints [FV.slope v; FV.ca v; FV.thal v] = Ok back /\
    X v = Ok [front ++ FV.oldpeak v :: back] /\
    List.length (front ++ FV.oldpeak v :: back) = 13%nat /\
    nth_error (front ++ FV.oldpeak v :: back) 9 = Some (FV.oldpeak v).
Proof.
  intros Ha Ho Hca.
  destruct (X_of_valid_form a o n Ha Ho Hca)
    as (v & front & back & E & Ef & Eb & Ex & Hlen & Hnth).
  exists v, front, back. repeat split; assumption.
Qed.

Lemma X_row_witness :
  (valid_answers example_answers /\ valid_overrides full_overrides /\
   ca_opt full_overrides = Some 2) /\
  exists v front back,
    features example_answers full_overrides = Ok v /\
    floats_of_ints
      [FV.age v; FV.sex v; FV.cp v; FV.trestbps v; FV.chol v; FV.fbs v;
       FV.restecg v; FV.thalach v; FV.exang v] = Ok front /\
    floats_of_ints [FV.slope v; FV.ca v; FV.thal v] = Ok back /\
    X v = Ok [front ++ FV.oldpeak v :: back] /\
    List.length (front ++ FV.oldpeak v :: back) = 13%nat /\
    nth_error (front ++ FV.oldpeak v :: back) 9 = Some (FV.oldpeak v).
Proof.
  split.
  - split; [exact example_answers_valid|].
    split; [exact full_overrides_valid | reflexivity].
  - exact (X_row example_answers full_overrides 2
             example_answers_valid full_overrides_valid eq_refl).
Defined.

(** ** The derived flags agree with each other *)

(** X12. When the angina and slope select boxes are left at "Unknown", the
    derived columns are consistent: a chest-pain type of 2 comes with the
    angina flag set and a downsloping ST segment (2), and an upsloping ST
    segment (0) comes with chest-pain type 0 and no angina. *)
Theorem derived_flags_consistent (a : Answers) (o : Overrides) :
  valid_answers a ->
  exang_opt o = Some YesNoOpt.Unknown ->
  slope_opt o = Some SlopeOpt.Unknown ->
  exists v,
    features a o = Ok v /\
    (FV.cp v = 2 -> FV.exang v = 1 /\ FV.slope v = 2) /\
    (FV.slope v = 0 -> FV.cp v = 0 /\ FV.exang v = 0).
Proof.
  intros Ha He Hs.
  destruct (features_total a o Ha) as (t & c & h & p & _ & _ & _ & _ & E).
  exists (vector a o t c h p). split; [exact E|].
  unfold vector; simpl.
  unfold cp, exang, slope. rewrite He, Hs.
  unfold derive_cp, derive_exang, derive_slope,
    stress_score, exercise_score, smoke_score.
  destruct (stress a), (exercise a), (smoking a); simpl;
    split; intros H; try discriminate H; split; reflexivity.
Qed.

Lemma derived_flags_consistent_witness :
  (valid_answers example_answers /\
   exang_opt no_overrides = Some YesNoOpt.Unknown /\
   slope_opt no_overrides = Some SlopeOpt.Unknown) /\
  exists v,
    features example_answers no_overrides = Ok v /\
    (FV.cp v = 2 -> FV.exang v = 1 /\ FV.slope v = 2) /\
    (FV.slope v = 0 -> FV.cp v = 0 /\ FV.exang v = 0).
Proof.
  split.
  - split; [exact example_answers_valid | split; reflexivity].
  - exact (derived_flags_consistent example_answers no_overrides
             example_answers_valid eq_refl eq_refl).
Defined.

(** * Further properties of the run *)

(** X13. When the model loads and the button was not clicked, the run ends
    without a prediction and without consulting the classifier, whatever the
    classifier is. *)
Theorem app_not_submitted
    (open_rb : string -> option (list Byte.byte))
    (pickle_load : list Byte.byte -> result Model)
    (data : list Byte.byte) (model : Model)
    (a : Answers) (o : Overrides) :
  open_rb "model.pkl"%string = Some data ->
  pickle_load data = Ok model ->
  valid_answers a ->
  app open_rb pickle_load a o false = Ok None.
Proof.
  intros Hopen Hload Ha.
  destruct (features_total a o Ha) as (t & c & h & p & _ & _ & _ & _ & E).
  unfold app, load_model. rewrite Hopen, Hload. simpl.
  rewrite E. reflexivity.
Qed.

Lemma app_not_submitted_witness :
  ((fun _ : string => Some [Byte.x80]) "model.pkl"%string = Some [Byte.x80] /\
   (fun _ : list Byte.byte => Ok (constant_model 0.3 0.7)) [Byte.x80]
   = Ok (constant_model 0.3 0.7) /\
   valid_answers example_answers) /\
  app (fun _ => Some [Byte.x80]) (fun _ => Ok (constant_model 0.3 0.7))
    example_answers no_overrides false = Ok None.
Proof.
  split.
  - split; [reflexivity | split; [reflexivity | exact example_answers_valid]].
  - exact (app_not_submitted (fun _ => Some [Byte.x80])
             (fun _ => Ok (constant_model 0.3 0.7)) [Byte.x80]
             (constant_model 0.3 0.7) example_answers no_overrides
             eq_refl eq_refl example_answers_valid).
Defined.

(** X14. When the model loads, the button was clicked and the classifier
    answers the row with one pair of probabilities, the prediction shown has
    the second of the pair as its probability, the label of that probability
    and that probability times 100 rounded to one decimal. *)
Theorem app_submitted
    (open_rb : string -> option (list Byte.byte))
    (pickle_load : list Byte.byte -> result Model)
    (data : list Byte.byte) (model : Model)
    (a : Answers) (o : Overrides) (n : Z) (p0 p1 : float) :
  open_rb "model.pkl"%string = Some data ->
  pickle_load data = Ok model ->
  valid_answers a -> valid_overrides o -> ca_opt o = Some n ->
  (forall x, predict_proba model [x] = Ok [[p0; p1]]) ->
  app open_rb pickle_load a o true
  = Ok (Some {| prob := p1;
                label := pred_label p1;
                pct := Py.round1 (p1 * 100)%float |}).
Proof.
  intros Hopen Hload Ha Ho Hca Hmodel.
  destruct (X_of_valid_form a o n Ha Ho Hca)
    as (v & front & back & E & _ & _ & Ex & _ & _).
  unfold app, load_model. rewrite Hopen, Hload. simpl.
  rewrite E. simpl. unfold predict. rewrite Ex. simpl.
  rewrite Hmodel. reflexivity.
Qed.

Lemma app_submitted_witness :
  ((fun _ : string => Some [Byte.x80]) "model.pkl"%string = Some [Byte.x80] /\
   (fun _ : list Byte.byte => Ok (constant_model 0.3 0.7)) [Byte.x80]
   = Ok (constant_model 0.3 0.7) /\
   valid_answers example_answers /\ valid_overrides full_overrides /\
   ca_opt full_overrides = Some 2 /\
   (forall x, predict_proba (constant_model 0.3 0.7) [x] = Ok [[0.3; 0.7]]%float)) /\
  app (fun _ => Some [Byte.x80]) (fun _ => Ok (constant_model 0.3 0.7))
    example_answers full_overrides true
  = Ok (Some {| prob := 0.7;
                label := pred_label 0.7;
                pct := Py.round1 (0.7 * 100)%float |}).
Proof.
  split.
  - split; [reflexivity|]. split; [reflexivity|].
    split; [exact example_answers_valid|].
    split; [exact full_overrides_valid|].
    split; [reflexivity | intros x; reflexivity].
  - exact (app_submitted (fun _ => Some [Byte.x80])
             (fun _ => Ok (constant_model 0.3 0.7)) [Byte.x80]
             (constant_model 0.3 0.7) example_answers full_overrides 2
             0.3%float 0.7%float
             eq_refl eq_refl example_answers_valid full_overrides_valid eq_refl
             (fun x => eq_refl)).
Defined.

(** X15. When the classifier answers with no row, or with a first row of
    fewer than two entries, the expression [predict_proba(X)[0][1]] raises
    [IndexError] and the run ends with it. *)
Theorem app_short_answer
    (open_rb : string -> option (list Byte.byte))
    (pickle_load : list Byte.byte -> result Model)
    (data : list Byte.byte) (model : Model)
    (a : Answers) (o : Overrides) (n : Z) (proba : list (list float)) :
  open_rb "model.pkl"%string = Some data ->
  pickle_load data = Ok model ->
  valid_answers a -> valid_overrides o -> ca_opt o = Some n ->
  (forall x, predict_proba model [x] = Ok proba) ->
  proba = [] \/
  (exists rest, proba = [] :: rest) \/
  (exists p rest, proba = [p] :: rest) ->
  app open_rb pickle_load a o true = Raise IndexError.
Proof.
  intros Hopen Hload Ha Ho Hca Hmodel Hshort.
  destruct (X_of_valid_form a o n Ha Ho Hca)
    as (v & front & back & E & _ & _ & Ex & _ & _).
  unfold app, load_model. rewrite Hopen, Hload. simpl.
  rewrite E. simpl. unfold predict. rewrite Ex. simpl.
  rewrite Hmodel.
  destruct Hshort as [-> | [[rest ->] | [p [rest ->]]]]; reflexivity.
Qed.

Lemma app_short_answer_witness :
  ((fun _ : string => Some [Byte.x80]) "model.pkl"%string = Some [Byte.x80] /\
   (fun _ : list Byte.byte => Ok (one_column_model 0.7)) [Byte.x80]
   = Ok (one_column_model 0.7) /\
   valid_answers example_answers /\ valid_overrides full_overrides /\
   ca_opt full_overrides = Some 2 /\
   (forall x, predict_proba (one_column_model 0.7) [x] = Ok [[0.7]]%float) /\
   ([[0.7]]%float = [] \/
    (exists rest, [[0.7]]%float = [] :: rest) \/
    (exists p rest, [[0.7]]%float = [p] :: rest))) /\
  app (fun _ => Some [Byte.x80]) (fun _ => Ok (one_column_model 0.7))
    example_answers full_overrides true = Raise IndexError.
Proof.
  assert (Hs : [[0.7]]%float = [] \/
               (exists rest, [[0.7]]%float = [] :: rest) \/
               (exists p rest, [[0.7]]%float = [p] :: rest)).
  { right. right. exists 0.7%float, []. reflexivity. }
  split.
  - split; [reflexivity|]. split; [reflexivity|].
    split; [exact example_answers_valid|].
    split; [exact full_overrides_valid|].
    split; [reflexivity|]. split; [intros x; reflexivity | exact Hs].
  - exact (app_short_answer (fun _ => Some [Byte.x80])
             (fun _ => Ok (one_column_model 0.7)) [Byte.x80]
             (one_column_model 0.7) example_answers full_overrides 2
             [[0.7]]%float
             eq_refl eq_refl example_answers_valid full_overrides_valid eq_refl
             (fun x => eq_refl) Hs).
Defined.

(** ** What is shown *)

(** X16. The advice follows the same threshold as the label: for a finite
    predicted probability standing for the rational [q], the warning and the
    encouragement to change are shown exactly when [q] is above one half, and
    the reassurance is shown otherwise. *)
Theorem advice_follows_threshold (pred_prob : float) (q : Q) :
  Q_of_float pred_prob = Some q ->
  (Qlt (1 # 2) q ->
   advice (pred_label pred_prob)
   = [st_error
        "You may be at a higher heart risk. Consider improving diet, exercising more, and managing stress.";
      st_info "🩷 Small, steady lifestyle changes make a big difference over time."]) /\
  (~ Qlt (1 # 2) q ->
   advice (pred_label pred_prob)
   = [st_success
        "You're doing well! Keep up regular activity, balanced meals, and enough rest."]).
Proof.
  intros Hq. pose proof (ltb_half_exact pred_prob q Hq) as Hlt.
  unfold pred_label.
  destruct (0.5 <? pred_prob)%float.
  - split; [intros _; vm_compute; reflexivity|].
    intros Hn. exfalso. apply Hn, Hlt. reflexivity.
  - split; [|intros _; vm_compute; reflexivity].
    intros H. apply Hlt in H. discriminate H.
Qed.

Lemma advice_follows_threshold_witness :
  Q_of_float 0.75 = Some (6755399441055744 # 9007199254740992) /\
  (Qlt (1 # 2) (6755399441055744 # 9007199254740992) ->
   advice (pred_label 0.75)
   = [st_error
        "You may be at a higher heart risk. Consider improving diet, exercising more, and managing stress.";
      st_info "🩷 Small, steady lifestyle changes make a big difference over time."]) /\
  (~ Qlt (1 # 2) (6755399441055744 # 9007199254740992) ->
   advice (pred_label 0.75)
   = [st_success
        "You're doing well! Keep up regular activity, balanced meals, and enough rest."]).
Proof.
  assert (H : Q_of_float 0.75 = Some (6755399441055744 # 9007199254740992))
    by (vm_compute; reflexivity).
  split; [exact H|].
  exact (advice_follows_threshold 0.75 (6755399441055744 # 9007199254740992) H).
Defined.



(** * Further properties of the training script *)

Ltac failing_run H :=
  apply (f_equal snd) in H; cbn [snd] in H; subst;
  match goal with
  | Hin : In _ _ |- _ =>
      cbn [In] in Hin;
      repeat match type of Hin with
             | _ \/ _ => destruct Hin as [Hin | Hin]
             end;
      try contradiction; subst;
      split; intros; discriminate
  end.

(** X18. A run of the training script that ends with an exception has written
    no model file and printed no confirmation: among the calls it made there is
    no dump and no print. *)
Theorem failed_run_writes_nothing (L : Train.Library) (e : exn)
    (log : list Train.Call) :
  Train.train_model [] = (Raise e, log) ->
  forall c, In c log ->
    (forall path bytes, c <> Train.Call_dump path bytes) /\
    (forall msg, c <> Train.Call_print msg).
Proof.
  intros H c Hin.
  unfold Train.train_model, Train.do_read_csv, Train.do_train_test_split,
    Train.do_RandomForestClassifier, Train.do_fit, Train.do_dump,
    Train.mbind, Train.emit, Train.lift, Train.ret in H.
  cbn [List.app] in H.
  destruct (Train.read_csv "heart (1).csv") as [df|]; [|failing_run H].
  destruct (Train.drop df "target") as [X|]; [|failing_run H].
  destruct (Train.column df "target") as [y|]; [|failing_run H].
  destruct (Train.train_test_split X y 0.2 42)
    as [[[[X_train X_test] y_train] y_test]|]; [|failing_run H].
  cbn [List.app] in H.
  destruct (Train.fit (Train.RandomForestClassifier 200 42) X_train y_train)
    as [model|]; [|failing_run H].
  cbn [List.app] in H.
  apply (f_equal fst) in H. cbn [fst] in H. discriminate H.
Qed.

Lemma failed_run_writes_nothing_witness :
  @Train.train_model no_data_library []
  = (Raise FileNotFoundError, [Train.Call_read_csv "heart (1).csv"]) /\
  forall c, In c [Train.Call_read_csv "heart (1).csv"] ->
    (forall path bytes, c <> Train.Call_dump path bytes) /\
    (forall msg, c <> Train.Call_print msg).
Proof.
  assert (H : @Train.train_model no_data_library []
              = (Raise FileNotFoundError, [Train.Call_read_csv "heart (1).csv"]))
    by reflexivity.
  split; [exact H|].
  exact (failed_run_writes_nothing no_data_library FileNotFoundError _ H).
Defined.
